(** * planktoscope.light: the LM36011 LED driver and its control loop

    A shallow embedding of [control/planktoscopehat/planktoscope/light.py]:
    the class [i2c_led] (register protocol of the LED chip) and the class
    [LightProcess] (the MQTT command loop).  Python objects become records,
    the side effects on GPIO, the I2C bus and the MQTT client become events
    appended to a trace, and exceptions are carried by an error monad whose
    state survives a raise.  Calls to the logger have no effect on the
    program's state or on its collaborators and are left out. *)

From Stdlib Require Import ZArith List String Ascii Bool Lia DecimalString.
Import ListNotations.

Local Open Scope string_scope.
Local Open Scope Z_scope.
Local Open Scope list_scope.

(** ** Python values and exceptions *)

(** What [json.loads] can produce: the payload of an inbound message.  A
    float is kept as its IEEE 754 binary64 bit pattern, a dict as the list of
    its items. *)
#[warnings="-register-all"]
Inductive json : Type :=
| JNull
| JBool (b : bool)
| JInt (n : Z)
| JFloat (bits : Z)
| JStr (s : string)
| JArr (items : list json)
| JObj (items : list (string * json)).

Inductive exn : Type :=
| AttributeError (attr : string)
| TypeError
| KeyError (key : string)
| OverflowError
| OSError.

Inductive result (A : Type) : Type :=
| Ok (a : A)
| Raise (e : exn).
Arguments Ok {A} a.
Arguments Raise {A} e.

Module Py.

(** [needle in haystack] on two [str]: substring search. *)
Fixpoint substring (needle haystack : string) : bool :=
  String.prefix needle haystack
  || match haystack with
     | EmptyString => false
     | String _ rest => substring needle rest
     end.

Fixpoint dict_get (items : list (string * json)) (key : string) : option json :=
  match items with
  | [] => None
  | (k, v) :: rest => if String.eqb k key then Some v else dict_get rest key
  end.

(** [value == "literal"]: only a [str] compares equal to a [str]. *)
Definition eq_str (value : json) (literal : string) : bool :=
  match value with
  | JStr s => String.eqb s literal
  | _ => false
  end.

(** ["key" in container]. *)
Definition contains (key : string) (container : json) : result bool :=
  match container with
  | JObj items =>
      Ok (match dict_get items key with Some _ => true | None => false end)
  | JStr s => Ok (substring key s)
  | JArr items => Ok (existsb (fun v => eq_str v key) items)
  | JNull | JBool _ | JInt _ | JFloat _ => Raise TypeError
  end.

(** [container["key"]]. *)
Definition getitem (container : json) (key : string) : result json :=
  match container with
  | JObj items =>
      match dict_get items key with
      | Some v => Ok v
      | None => Raise (KeyError key)
      end
  | _ => Raise TypeError
  end.

(** Truth value of an object in an [if]. *)
Definition truthy (value : json) : bool :=
  match value with
  | JNull => false
  | JBool b => b
  | JInt n => negb (n =? 0)
  | JFloat bits => negb ((bits =? 0) || (bits =? Z.shiftl 1 63))
  | JStr s => negb (String.eqb s EmptyString)
  | JArr items => match items with [] => false | _ => true end
  | JObj items => match items with [] => false | _ => true end
  end.

(** [bool(n)] of an [int]. *)
Definition bool_of_int (n : Z) : bool := negb (n =? 0).

(** [str(value)] as an f-string field computes it; the [repr] of floats,
    lists and dicts is taken from the runtime. *)
Definition str (repr : json -> string) (value : json) : string :=
  match value with
  | JNull => "None"
  | JBool true => "True"
  | JBool false => "False"
  | JInt n => NilZero.string_of_int (Z.to_int n)
  | JStr s => s
  | JFloat _ | JArr _ | JObj _ => repr value
  end.

End Py.

(** ** Binary64 arithmetic of [int(current * 0.085)] *)

Module PyFloat.

(** A finite double: [(-1)^neg * man * 2^exp]. *)
Record t : Type := { neg : bool; man : Z; exp : Z }.

(** Round a positive integer to 53 significant bits, ties to even: the
    result [(m, e)] stands for [m * 2^e]. *)
Definition round53 (n : Z) : Z * Z :=
  let bits := Z.log2 n + 1 in
  if bits <=? 53 then (n, 0)
  else
    let sh := bits - 53 in
    let q := Z.shiftr n sh in
    let r := Z.land n (Z.ones sh) in
    let half := Z.shiftl 1 (sh - 1) in
    if (half <? r) || ((r =? half) && Z.odd q) then (q + 1, sh) else (q, sh).

(** Conversion of the [int] operand of [int * float]. *)
Definition of_int (c : Z) : result t :=
  let '(m, e) := round53 (Z.abs c) in
  if Z.shiftl 1 1024 <=? Z.shiftl m e then Raise OverflowError
  else Ok {| neg := c <? 0; man := m; exp := e |}.

(** Product of two doubles whose product lies in the normal range (it does
    for an integer times 0.085: it is zero or at least 0.085 in magnitude,
    and smaller than the integer). *)
Definition mul (a b : t) : t :=
  let '(m, sh) := round53 (man a * man b) in
  {| neg := xorb (neg a) (neg b); man := m; exp := exp a + exp b + sh |}.

(** [int(x)]: truncation toward zero. *)
Definition to_int (x : t) : Z :=
  let mag := if 0 <=? exp x then Z.shiftl (man x) (exp x)
             else Z.shiftr (man x) (- exp x) in
  if neg x then - mag else mag.

(** The literal [0.085], the double [0x1.5c28f5c28f5c3p-4]. *)
Definition lit_0_085 : t :=
  {| neg := false; man := 6124895493223875; exp := -56 |}.

End PyFloat.

(** ** The machine: the driver object, the collaborators' trace, the bus *)

Inductive event : Type :=
| GPIO_setwarnings (flag : bool)
| GPIO_setmode_BCM
| GPIO_setup_OUT (pin : Z)
| GPIO_output (pin : Z) (high : bool)
| GPIO_cleanup
| SMBus_write (device register data : Z)
| SMBus_read (device register : Z)
| MQTT_connect (topic name : string)
| MQTT_read_message
| MQTT_publish (topic payload : string)
| MQTT_shutdown
| Sleep (milliseconds : Z).

(** The instance attributes of an [i2c_led]. *)
Record led_attrs : Type := {
  VLED_short : bool;
  thermal_scale : bool;
  thermal_shutdown : bool;
  UVLO : bool;
  flash_timeout : bool;
  IVFM : bool;
  on : bool
}.

(** [bus n] is what the hardware answers to the [n]-th bus transaction:
    [None] when it fails (the bus layer raises [OSError]), [Some b] when it
    succeeds, [b] being the byte a read returns. *)
Record machine : Type := {
  led : led_attrs;
  trace : list event;
  bus : nat -> option Z;
  bus_ops : nat
}.

Definition M (A : Type) : Type := machine -> result A * machine.

Definition ret {A} (a : A) : M A := fun m => (Ok a, m).

Definition raise {A} (e : exn) : M A := fun m => (Raise e, m).

Definition bind {A B} (c : M A) (k : A -> M B) : M B :=
  fun m =>
    match c m with
    | (Ok a, m') => k a m'
    | (Raise e, m') => (Raise e, m')
    end.

Definition lift {A} (r : result A) : M A := fun m => (r, m).

Declare Scope py_scope.
Delimit Scope py_scope with py.
Notation "x <- c ;; k" := (bind c (fun x => k))
  (at level 61, c at next level, right associativity) : py_scope.
Notation "c ;; k" := (bind c (fun _ => k))
  (at level 61, right associativity) : py_scope.
Local Open Scope py_scope.

Definition emit (e : event) : M unit :=
  fun m => (Ok tt, {| led := led m; trace := trace m ++ [e];
                      bus := bus m; bus_ops := bus_ops m |}).

Definition set_led (f : led_attrs -> led_attrs) : M unit :=
  fun m => (Ok tt, {| led := f (led m); trace := trace m;
                      bus := bus m; bus_ops := bus_ops m |}).

(** One bus transaction: the next answer of the hardware. *)
Definition transact : M Z :=
  fun m =>
    let m' := {| led := led m; trace := trace m;
                 bus := bus m; bus_ops := S (bus_ops m) |} in
    match bus m (bus_ops m) with
    | Some b => (Ok b, m')
    | None => (Raise OSError, m')
    end.

(** [try: body / except: handler / else: orelse] with a bare [except]. *)
Definition try_except_else {A} (body : M A) (handler : M unit)
    (orelse : A -> M unit) : M unit :=
  fun m =>
    match body m with
    | (Ok a, m') => orelse a m'
    | (Raise _, m') => handler m'
    end.

(** The decorator [@logger.catch]: an exception raised by the function is
    logged and the call returns [None]. *)
Definition logger_catch (f : M unit) : M unit :=
  fun m =>
    match f m with
    | (Ok _, m') => (Ok tt, m')
    | (Raise _, m') => (Ok tt, m')
    end.

(** Every payload this module publishes has the shape
    [{"status":"<text>"}]. *)
Definition dquote : string := String "034"%char EmptyString.

Definition status (text : string) : string :=
  ("{" ++ dquote ++ "status" ++ dquote ++ ":" ++ dquote ++ text ++ dquote ++ "}")%string.

(** ** class i2c_led *)

Module i2c_led.

(** [class Register(enum.IntEnum)] *)
Inductive Register : Type :=
| enable | configuration | flash | torch | flags | id_reset.

Definition Register_value (r : Register) : Z :=
  match r with
  | enable => 0x01
  | configuration => 0x02
  | flash => 0x03
  | torch => 0x04
  | flags => 0x05
  | id_reset => 0x06
  end.

Definition DEVICE_ADDRESS : Z := 0x64.
Definition DEFAULT_CURRENT : Z := 10.
Definition LED_selectPin : Z := 18.

Definition _write_byte (address : Register) (data : Z) : M unit :=
  emit (SMBus_write DEVICE_ADDRESS (Register_value address) data) ;;
  _ <- transact ;;
  ret tt.

Definition _read_byte (address : Register) : M Z :=
  emit (SMBus_read DEVICE_ADDRESS (Register_value address)) ;;
  b <- transact ;;
  ret b.

Definition output_to_led1 : M unit :=
  emit (GPIO_output LED_selectPin true).

Definition get_id : M Z :=
  led_id <- _read_byte id_reset ;;
  ret (Z.land led_id 0x3f).

Definition get_state : M bool :=
  fun m => (Ok (on (led m)), m).

Definition force_reset : M unit :=
  _write_byte id_reset 0x80.

(** The six assignments of [get_flags] on the attributes of [self]; the
    masks are the source's [0b1], [0b10], [0b100], [0b1000], [0b100000] and
    [0b1000000]. *)
Definition decode_flags (byte : Z) (self : led_attrs) : led_attrs :=
  {| flash_timeout := Py.bool_of_int (Z.land byte 0x01);
     UVLO := Py.bool_of_int (Z.land byte 0x02);
     thermal_shutdown := Py.bool_of_int (Z.land byte 0x04);
     thermal_scale := Py.bool_of_int (Z.land byte 0x08);
     VLED_short := Py.bool_of_int (Z.land byte 0x20);
     IVFM := Py.bool_of_int (Z.land byte 0x40);
     on := on self |}.

Definition get_flags : M Z :=
  byte <- _read_byte flags ;;
  set_led (decode_flags byte) ;;
  ret byte.

(** [int(current * 0.085)] for an [int] argument. *)
Definition flash_value (current : Z) : result Z :=
  match PyFloat.of_int current with
  | Ok x => Ok (PyFloat.to_int (PyFloat.mul x PyFloat.lit_0_085))
  | Raise e => Raise e
  end.

Definition set_flash_current (current : Z) : M unit :=
  value <- lift (flash_value current) ;;
  _write_byte flash value.

Definition clear_flags (self : led_attrs) : led_attrs :=
  {| VLED_short := false; thermal_scale := false; thermal_shutdown := false;
     UVLO := false; flash_timeout := false; IVFM := false; on := on self |}.

(** [__init__]; the [except] clause logs and raises the exception again. *)
Definition __init__ : M unit :=
  set_led (fun _ =>
    {| VLED_short := false; thermal_scale := false; thermal_shutdown := false;
       UVLO := false; flash_timeout := false; IVFM := false; on := false |}) ;;
  emit (GPIO_setwarnings false) ;;
  emit GPIO_setmode_BCM ;;
  emit (GPIO_setup_OUT LED_selectPin) ;;
  output_to_led1 ;;
  set_led (fun self =>
    {| VLED_short := VLED_short self; thermal_scale := thermal_scale self;
       thermal_shutdown := thermal_shutdown self; UVLO := UVLO self;
       flash_timeout := flash_timeout self; IVFM := IVFM self; on := false |}) ;;
  force_reset ;;
  raised <- get_flags ;;
  (if Py.bool_of_int raised then set_led clear_flags else ret tt) ;;
  _ <- get_id ;;
  ret tt.

(** The class defines no [set_torch_current]: looking the attribute up on
    an instance raises [AttributeError] before anything is called. *)
Definition set_torch_current (current : json) : M unit :=
  raise (AttributeError "set_torch_current").

End i2c_led.

(** ** class LightProcess *)

Module LightProcess.

Section Runtime.

(** The runtime's [repr] of floats, lists and dicts, used by the f-strings. *)
Variable repr : json -> string.

Definition msg_no_field : string :=
  "Received message did not contain action or settings".
Definition msg_on : string := "Led 1: On".
Definition msg_off : string := "Led 1: Off".
Definition msg_turn_off_first : string :=
  "Turn off the LED before changing the current".
Definition msg_error : string :=
  "Error while setting the current, power cycle your machine".
Definition msg_ready : string := "Ready".
Definition msg_dead : string := "Dead".

(** [self.light_client.client.publish("status/light", payload)] *)
Definition publish (payload : string) : M unit :=
  emit (MQTT_publish "status/light" payload).

(** [__init__]; the [except] clause logs and raises the exception again. *)
Definition __init__ : M unit :=
  i2c_led.__init__ ;;
  i2c_led.output_to_led1 ;;
  emit (Sleep 500).

Definition led_off (led : Z) : M unit := ret tt.

Definition led_on (led : Z) : M unit := i2c_led.output_to_led1.

(** [if "action" in last_message: ...] *)
Definition apply_action (last_message : json) : M unit :=
  has_action <- lift (Py.contains "action" last_message) ;;
  if has_action then
    action <- lift (Py.getitem last_message "action") ;;
    if Py.eq_str action "on" then
      led_on 0 ;;
      publish (status msg_on)
    else
      action' <- lift (Py.getitem last_message "action") ;;
      if Py.eq_str action' "off" then
        led_off 0 ;;
        publish (status msg_off)
      else ret tt
  else ret tt.

(** [if "settings" in last_message: ...] *)
Definition apply_settings (last_message : json) : M unit :=
  has_settings <- lift (Py.contains "settings" last_message) ;;
  if has_settings then
    settings <- lift (Py.getitem last_message "settings") ;;
    has_current <- lift (Py.contains "current" settings) ;;
    if has_current then
      settings' <- lift (Py.getitem last_message "settings") ;;
      current <- lift (Py.getitem settings' "current") ;;
      lit <- i2c_led.get_state ;;
      if lit then
        publish (status msg_turn_off_first)
      else
        try_except_else
          (i2c_led.set_torch_current current)
          (publish (status msg_error))
          (fun _ =>
             publish (status ("Current set to " ++ Py.str repr current ++ "mA")%string))
    else
      publish (status ("Settings request not understood in "
                       ++ Py.str repr last_message)%string)
  else ret tt.

(** [if last_message: ...] *)
Definition interpret (last_message : json) : M unit :=
  if Py.truthy last_message then
    apply_action last_message ;;
    apply_settings last_message
  else ret tt.

(** The body of [treat_message].  [incoming] is what the MQTT client holds
    at this poll: [Some payload] when [new_message_received()] is true, the
    payload being [msg["payload"]]. *)
Definition treat_message_body (incoming : option json) : M unit :=
  match incoming with
  | Some last_message =>
      emit MQTT_read_message ;;
      has_action <- lift (Py.contains "action" last_message) ;;
      lacks_both <-
        (if has_action then ret false
         else has_settings <- lift (Py.contains "settings" last_message) ;;
              ret (negb has_settings)) ;;
      if lacks_both then publish (status msg_no_field)
      else interpret last_message
  | None => interpret JNull
  end.

Definition treat_message (incoming : option json) : M unit :=
  logger_catch (treat_message_body incoming).

(** [while not self.stop_event.is_set(): ...]: one element of [polls] for
    each iteration that finds the stop event clear. *)
Fixpoint loop (polls : list (option json)) : M unit :=
  match polls with
  | [] => ret tt
  | incoming :: rest =>
      treat_message incoming ;;
      emit (Sleep 100) ;;
      loop rest
  end.

(** What [run] does once the loop is left. *)
Definition shutdown : M unit :=
  i2c_led.set_flash_current 1 ;;
  _ <- i2c_led.get_flags ;;
  emit GPIO_cleanup ;;
  publish (status msg_dead) ;;
  emit MQTT_shutdown.

Definition run_body (polls : list (option json)) : M unit :=
  emit (MQTT_connect "light" "light_client") ;;
  publish (status msg_ready) ;;
  loop polls ;;
  shutdown.

Definition run (polls : list (option json)) : M unit :=
  logger_catch (run_body polls).

End Runtime.

End LightProcess.

(** ** Reading the trace *)

(** [m] after the events [tr], nothing else changed. *)
Definition add_events (m : machine) (tr : list event) : machine :=
  {| led := led m; trace := trace m ++ tr; bus := bus m; bus_ops := bus_ops m |}.

Definition status_reply (text : string) : event :=
  MQTT_publish "status/light" (status text).

(** A transaction on the I2C bus: a register write or read of the chip. *)
Definition is_bus_event (e : event) : bool :=
  match e with
  | SMBus_write _ _ _ | SMBus_read _ _ => true
  | _ => false
  end.

Definition is_register_write (e : event) : bool :=
  match e with
  | SMBus_write _ _ _ => true
  | _ => false
  end.

(** Any operation on the chip or on its select line. *)
Definition is_chip_event (e : event) : bool :=
  match e with
  | SMBus_write _ _ _ | SMBus_read _ _ | GPIO_output _ _ | GPIO_cleanup
  | GPIO_setwarnings _ | GPIO_setmode_BCM | GPIO_setup_OUT _ => true
  | _ => false
  end.

Definition is_publish (e : event) : bool :=
  match e with
  | MQTT_publish _ _ => true
  | _ => false
  end.

Definition is_sleep (e : event) : bool :=
  match e with
  | Sleep _ => true
  | _ => false
  end.

(** The events of the action part of [treat_message] on a dict. *)
Definition action_events (items : list (string * json)) : list event :=
  match Py.dict_get items "action" with
  | Some action =>
      if Py.eq_str action "on" then
        [GPIO_output 18 true; status_reply LightProcess.msg_on]
      else if Py.eq_str action "off" then
        [status_reply LightProcess.msg_off]
      else []
  | None => []
  end.

(** What one call of [treat_message] may leave in the trace when the tracked
    flag is [lit]: no bus transaction, and the rejection of a current change
    only when the flag is set. *)
Definition dispatch_event (lit : bool) (e : event) : Prop :=
  match e with
  | MQTT_read_message => True
  | GPIO_output pin high => pin = 18 /\ high = true
  | MQTT_publish topic payload =>
      topic = "status/light"
      /\ payload <> status LightProcess.msg_dead
      /\ (payload = status LightProcess.msg_turn_off_first -> lit = true)
  | _ => False
  end.

(** The same for one iteration of the loop, which then sleeps. *)
Definition loop_event (lit : bool) (e : event) : Prop :=
  match e with
  | Sleep ms => ms = 100
  | _ => dispatch_event lit e
  end.

(** A machine at power-on, before anything is constructed, whose bus will
    answer as [answers] says. *)
Definition power_on (answers : nat -> option Z) : machine :=
  {| led := {| VLED_short := false; thermal_scale := false;
               thermal_shutdown := false; UVLO := false;
               flash_timeout := false; IVFM := false; on := false |};
     trace := []; bus := answers; bus_ops := 0 |}.

(** The same machine with the tracked flag forced to [lit]. *)
Definition with_on (lit : bool) (m : machine) : machine :=
  {| led := {| VLED_short := VLED_short (led m);
               thermal_scale := thermal_scale (led m);
               thermal_shutdown := thermal_shutdown (led m);
               UVLO := UVLO (led m); flash_timeout := flash_timeout (led m);
               IVFM := IVFM (led m); on := lit |};
     trace := trace m; bus := bus m; bus_ops := bus_ops m |}.

(** A bus that answers the three transactions of the construction and
    fails from then on. *)
Definition failing_after_start : nat -> option Z :=
  fun n => if (n <? 3)%nat then Some 0 else None.

(** A stand-in for the runtime's [repr], for the concrete runs below. *)
Definition sample_repr : json -> string := fun _ => "...".

(** The messages of the end-to-end scenarios: [{"action":"on"}],
    [{"action":"off"}], [{"settings":{"current":20}}] and [{"foo":"bar"}]. *)
Definition message_on : json := JObj [("action", JStr "on")].
Definition message_off : json := JObj [("action", JStr "off")].
Definition message_current_20 : json :=
  JObj [("settings", JObj [("current", JInt 20)])].
Definition message_foo_bar : json := JObj [("foo", JStr "bar")].

(** The attributes of a driver whose construction got past its header:
    no fault flag, light off. *)
Definition all_clear : led_attrs :=
  {| VLED_short := false; thermal_scale := false; thermal_shutdown := false;
     UVLO := false; flash_timeout := false; IVFM := false; on := false |}.

(** ** Bookkeeping on machines and status payloads *)

Lemma add_events_nil m : add_events m [] = m.
Proof. destruct m; unfold add_events; simpl. now rewrite app_nil_r. Qed.

Lemma add_events_app m a b :
  add_events (add_events m a) b = add_events m (a ++ b).
Proof. unfold add_events; simpl. now rewrite app_assoc. Qed.

Lemma emit_add_events e m : emit e m = (Ok tt, add_events m [e]).
Proof. reflexivity. Qed.

Lemma machine_eta m m' tr :
  led m' = led m -> bus m' = bus m -> bus_ops m' = bus_ops m ->
  trace m' = trace m ++ tr -> m' = add_events m tr.
Proof. destruct m'; unfold add_events; simpl; intros; subst; reflexivity. Qed.

Lemma status_inj a b : status a = status b -> a = b.
Proof.
  unfold status, dquote. simpl. intros H. injection H as H.
  revert b H.
  induction a as [|c a IH]; destruct b as [|d b]; simpl; intros H;
    try reflexivity.
  - destruct b as [|? [|? ?]]; discriminate.
  - destruct a as [|? [|? ?]]; discriminate.
  - injection H as -> H. f_equal. auto.
Qed.

Lemma status_neq a b : a <> b -> status a <> status b.
Proof. intros H E. apply H, status_inj, E. Qed.

(** ** The dispatch step touches nothing but the trace *)

Ltac split_atom :=
  match goal with
  | |- context [match ?x with _ => _ end] =>
      lazymatch x with
      | context [match _ with _ => _ end] => fail
      | _ => destruct x eqn:?
      end
  end.

Ltac finish_events :=
  simpl; rewrite <- ?app_assoc; simpl;
  first [ exists (@nil event); split; [now rewrite app_nil_r | constructor]
        | eexists; split; [reflexivity | ] ].

Ltac unfold_dispatch :=
  unfold LightProcess.treat_message, LightProcess.treat_message_body,
         LightProcess.interpret, LightProcess.apply_action,
         LightProcess.apply_settings, LightProcess.led_on,
         LightProcess.led_off, LightProcess.publish, i2c_led.output_to_led1,
         i2c_led.get_state, i2c_led.set_torch_current,
         try_except_else, logger_catch, bind, ret, lift, raise, emit.

Lemma treat_message_effect repr incoming m :
  fst (LightProcess.treat_message repr incoming m) = Ok tt
  /\ led (snd (LightProcess.treat_message repr incoming m)) = led m
  /\ bus (snd (LightProcess.treat_message repr incoming m)) = bus m
  /\ bus_ops (snd (LightProcess.treat_message repr incoming m)) = bus_ops m
  /\ exists tr,
       trace (snd (LightProcess.treat_message repr incoming m)) = trace m ++ tr
       /\ Forall (dispatch_event (on (led m))) tr.
Proof.
  unfold_dispatch.
  destruct incoming as [last_message|]; cbn beta iota;
    repeat (split_atom; cbn beta iota);
    cbn [fst snd led bus bus_ops trace]; (repeat split; try reflexivity);
    finish_events.
  all: repeat constructor.
  all: try (apply status_neq; discriminate).
  all: try (intros E; apply status_inj in E; discriminate).
  all: intros _; simpl in *; congruence.
Qed.

Lemma treat_message_frame repr incoming m :
  exists tr,
    LightProcess.treat_message repr incoming m = (Ok tt, add_events m tr)
    /\ Forall (dispatch_event (on (led m))) tr.
Proof.
  destruct (treat_message_effect repr incoming m)
    as (Hr & Hl & Hb & Ho & tr & Ht & Hf).
  exists tr. split; [|exact Hf].
  destruct (LightProcess.treat_message repr incoming m) as [r m']. simpl in *.
  subst r. f_equal. now apply machine_eta.
Qed.

Lemma dispatch_no_sleep lit tr :
  Forall (dispatch_event lit) tr -> filter is_sleep tr = [].
Proof.
  induction 1 as [|e l He _ IH]; [reflexivity|].
  destruct e; simpl in *; try contradiction; exact IH.
Qed.

Lemma dispatch_loop_event lit e : dispatch_event lit e -> loop_event lit e.
Proof. destruct e; simpl; auto; contradiction. Qed.

Lemma loop_frame repr polls : forall m,
  exists tr,
    LightProcess.loop repr polls m = (Ok tt, add_events m tr)
    /\ Forall (loop_event (on (led m))) tr
    /\ List.length (filter is_sleep tr) = List.length polls.
Proof.
  induction polls as [|incoming rest IH]; intros m.
  - exists []. simpl. unfold ret. rewrite add_events_nil.
    repeat split. constructor.
  - destruct (treat_message_frame repr incoming m) as (tr1 & E1 & F1).
    destruct (IH (add_events m (tr1 ++ [Sleep 100]))) as (tr2 & E2 & F2 & L2).
    exists (tr1 ++ [Sleep 100] ++ tr2).
    simpl LightProcess.loop. unfold bind at 1. rewrite E1.
    unfold bind at 1. rewrite emit_add_events, add_events_app, E2, add_events_app.
    rewrite <- app_assoc. repeat split.
    + apply Forall_app; split.
      * eapply Forall_impl; [|exact F1]. apply dispatch_loop_event.
      * apply Forall_app; split; [|exact F2]. repeat constructor.
    + rewrite !filter_app, !length_app, L2, (dispatch_no_sleep _ _ F1).
      reflexivity.
Qed.

(** ** The driver *)

Lemma bool_of_int_land_bit b k :
  0 <= k -> Py.bool_of_int (Z.land b (2 ^ k)) = Z.testbit b k.
Proof.
  intros Hk. unfold Py.bool_of_int.
  destruct (Z.testbit b k) eqn:Hb.
  - apply negb_true_iff, Z.eqb_neq. intros E.
    assert (Z.testbit (Z.land b (2 ^ k)) k = true) as H
      by (rewrite Z.land_spec, Hb, Z.pow2_bits_true; auto).
    rewrite E, Z.bits_0 in H. discriminate.
  - apply negb_false_iff, Z.eqb_eq. apply Z.bits_inj'. intros n Hn.
    rewrite Z.land_spec, Z.bits_0, Z.pow2_bits_eqb by lia.
    destruct (Z.eqb_spec k n) as [->|_].
    + rewrite Hb. reflexivity.
    + apply andb_false_r.
Qed.

Lemma decode_flags_bits byte self :
  i2c_led.decode_flags byte self =
  {| flash_timeout := Z.testbit byte 0; UVLO := Z.testbit byte 1;
     thermal_shutdown := Z.testbit byte 2; thermal_scale := Z.testbit byte 3;
     VLED_short := Z.testbit byte 5; IVFM := Z.testbit byte 6;
     on := on self |}.
Proof.
  unfold i2c_led.decode_flags. f_equal;
    match goal with
    | |- _ = Z.testbit _ ?k => exact (bool_of_int_land_bit byte k ltac:(lia))
    end.
Qed.

Lemma get_flags_run m byte :
  bus m (bus_ops m) = Some byte ->
  i2c_led.get_flags m =
  (Ok byte,
   {| led := i2c_led.decode_flags byte (led m);
      trace := trace m ++ [SMBus_read 0x64 0x05];
      bus := bus m; bus_ops := S (bus_ops m) |}).
Proof.
  intros H.
  unfold i2c_led.get_flags, i2c_led._read_byte, bind, emit, transact, set_led, ret.
  simpl. rewrite H. reflexivity.
Qed.

(** C3: whatever byte the flags register returns, [get_flags] sets
    [flash_timeout] from bit 0, [UVLO] from bit 1, [thermal_shutdown] from
    bit 2, [thermal_scale] from bit 3, [VLED_short] from bit 5 and [IVFM]
    from bit 6; a byte that differs from it in bits 4 and 7 only decodes to
    the same attributes. *)
Theorem get_flags_fixed_bit_positions (m : machine) (byte : Z) :
  bus m (bus_ops m) = Some byte ->
  let self := led (snd (i2c_led.get_flags m)) in
  fst (i2c_led.get_flags m) = Ok byte
  /\ flash_timeout self = Z.testbit byte 0
  /\ UVLO self = Z.testbit byte 1
  /\ thermal_shutdown self = Z.testbit byte 2
  /\ thermal_scale self = Z.testbit byte 3
  /\ VLED_short self = Z.testbit byte 5
  /\ IVFM self = Z.testbit byte 6
  /\ forall (m' : machine) (byte' : Z),
       bus m' (bus_ops m') = Some byte' ->
       led m' = led m ->
       (forall k, k <> 4 -> k <> 7 -> Z.testbit byte' k = Z.testbit byte k) ->
       led (snd (i2c_led.get_flags m')) = self.
Proof.
  intros H self. subst self. rewrite (get_flags_run m byte H).
  cbn [fst snd led]. rewrite decode_flags_bits.
  cbn [flash_timeout UVLO thermal_shutdown thermal_scale VLED_short IVFM].
  repeat (split; [reflexivity|]).
  intros m' byte' H' Hled Hbits.
  rewrite (get_flags_run m' byte' H'). cbn [snd led].
  rewrite decode_flags_bits, Hled, !Hbits by lia. reflexivity.
Qed.

Lemma flash_value_table (current : Z) :
  0 <= current <= 1500 ->
  i2c_led.flash_value current = Ok (current * 17 / 200).
Proof.
  intros H.
  assert (forallb
            (fun n =>
               match i2c_led.flash_value (Z.of_nat n) with
               | Ok v => v =? Z.of_nat n * 17 / 200
               | Raise _ => false
               end) (seq 0 1501) = true) as T by (vm_compute; reflexivity).
  rewrite forallb_forall in T.
  specialize (T (Z.to_nat current)).
  rewrite Z2Nat.id in T by lia.
  destruct (i2c_led.flash_value current) as [v|e].
  - f_equal. apply Z.eqb_eq, T, in_seq. lia.
  - discriminate T. apply in_seq. lia.
Qed.

Lemma set_flash_current_run m current value :
  i2c_led.flash_value current = Ok value ->
  i2c_led.set_flash_current current m =
  (match bus m (bus_ops m) with Some _ => Ok tt | None => Raise OSError end,
   {| led := led m; trace := trace m ++ [SMBus_write 0x64 0x03 value];
      bus := bus m; bus_ops := S (bus_ops m) |}).
Proof.
  intros H.
  unfold i2c_led.set_flash_current, i2c_led._write_byte, bind, lift, emit,
    transact, ret.
  rewrite H. simpl. destruct (bus m (bus_ops m)); reflexivity.
Qed.

(** C4: for a current of 11 to 1500 mA, [set_flash_current] computes
    [int(current * 0.085)] in binary64 arithmetic to the exact floor of
    [current * 17 / 200] and makes one write of that value to the flash
    register; for 0 it computes 0 without raising, and the call then fails
    only if the bus transaction does. *)
Theorem set_flash_current_exact_floor (m : machine) (current : Z) :
  11 <= current <= 1500 ->
  (exists value,
      i2c_led.flash_value current = Ok value
      /\ value = current * 17 / 200
      /\ 200 * value <= 17 * current < 200 * (value + 1)
      /\ trace (snd (i2c_led.set_flash_current current m)) =
         trace m ++ [SMBus_write 0x64 0x03 value])
  /\ i2c_led.flash_value 0 = Ok 0
  /\ trace (snd (i2c_led.set_flash_current 0 m)) =
     trace m ++ [SMBus_write 0x64 0x03 0]
  /\ (fst (i2c_led.set_flash_current 0 m) = Ok tt
      <-> bus m (bus_ops m) <> None).
Proof.
  intros H. split; [|split; [|split]].
  - exists (current * 17 / 200).
    assert (i2c_led.flash_value current = Ok (current * 17 / 200)) as E
      by (apply flash_value_table; lia).
    split; [exact E|]. split; [reflexivity|]. split.
    + pose proof (Z.div_mod (current * 17) 200 ltac:(lia)) as D.
      pose proof (Z.mod_pos_bound (current * 17) 200 ltac:(lia)) as B.
      lia.
    + rewrite (set_flash_current_run m current _ E). reflexivity.
  - reflexivity.
  - rewrite (set_flash_current_run m 0 0 eq_refl). reflexivity.
  - rewrite (set_flash_current_run m 0 0 eq_refl). simpl.
    destruct (bus m (bus_ops m)); split; congruence.
Qed.

Lemma shutdown_run m :
  LightProcess.shutdown m =
  match bus m (bus_ops m) with
  | None =>
      (Raise OSError,
       {| led := led m; trace := trace m ++ [SMBus_write 0x64 0x03 0];
          bus := bus m; bus_ops := S (bus_ops m) |})
  | Some _ =>
      match bus m (S (bus_ops m)) with
      | None =>
          (Raise OSError,
           {| led := led m;
              trace := trace m ++ [SMBus_write 0x64 0x03 0; SMBus_read 0x64 0x05];
              bus := bus m; bus_ops := S (S (bus_ops m)) |})
      | Some byte =>
          (Ok tt,
           {| led := i2c_led.decode_flags byte (led m);
              trace := trace m ++ [SMBus_write 0x64 0x03 0; SMBus_read 0x64 0x05;
                                   GPIO_cleanup;
                                   status_reply LightProcess.msg_dead;
                                   MQTT_shutdown];
              bus := bus m; bus_ops := S (S (bus_ops m)) |})
      end
  end.
Proof.
  unfold LightProcess.shutdown. unfold bind at 1.
  rewrite (set_flash_current_run m 1 0 eq_refl).
  destruct (bus m (bus_ops m)) as [w|]; [|reflexivity].
  unfold i2c_led.get_flags, i2c_led._read_byte, LightProcess.publish, bind,
    emit, transact, set_led, ret.
  cbn [led trace bus bus_ops].
  destruct (bus m (S (bus_ops m))) as [byte|];
    cbn [led trace bus bus_ops]; rewrite <- ?app_assoc; reflexivity.
Qed.

(** C10: [set_flash_current(1)], the call made at shutdown, writes the byte 0
    to the flash register, since [int(1 * 0.085)] is 0: it does what
    [set_flash_current(0)] does. *)
Theorem shutdown_current_is_register_zero (m : machine) :
  i2c_led.flash_value 1 = Ok 0
  /\ i2c_led.set_flash_current 1 m = i2c_led.set_flash_current 0 m
  /\ trace (snd (i2c_led.set_flash_current 1 m)) =
     trace m ++ [SMBus_write 0x64 0x03 0]
  /\ exists rest,
       trace (snd (LightProcess.shutdown m)) =
       trace m ++ SMBus_write 0x64 0x03 0 :: rest.
Proof.
  split; [reflexivity|]. split; [|split].
  - rewrite (set_flash_current_run m 1 0 eq_refl),
      (set_flash_current_run m 0 0 eq_refl). reflexivity.
  - rewrite (set_flash_current_run m 1 0 eq_refl). reflexivity.
  - rewrite shutdown_run.
    destruct (bus m (bus_ops m)) as [w|];
      [destruct (bus m (S (bus_ops m))) as [byte|]|];
      eexists; reflexivity.
Qed.

(** ** The dispatch step on a dict *)

Lemma apply_action_dict items m :
  LightProcess.apply_action (JObj items) m =
  (Ok tt, add_events m (action_events items)).
Proof.
  unfold LightProcess.apply_action, action_events, LightProcess.led_on,
    LightProcess.led_off, LightProcess.publish, i2c_led.output_to_led1,
    status_reply, bind, lift, ret, emit.
  cbn [Py.contains Py.getitem].
  destruct (Py.dict_get items "action") as [action|]; cbn beta iota.
  - destruct (Py.eq_str action "on"); cbn beta iota.
    + unfold add_events. cbn [led trace bus bus_ops].
      rewrite <- app_assoc. reflexivity.
    + destruct (Py.eq_str action "off"); cbn beta iota.
      * reflexivity.
      * now rewrite add_events_nil.
  - now rewrite add_events_nil.
Qed.

Lemma apply_settings_current repr items sitems current m :
  Py.dict_get items "settings" = Some (JObj sitems) ->
  Py.dict_get sitems "current" = Some current ->
  LightProcess.apply_settings repr (JObj items) m =
  (Ok tt,
   add_events m
     [status_reply (if on (led m) then LightProcess.msg_turn_off_first
                    else LightProcess.msg_error)]).
Proof.
  intros Hs Hc.
  unfold LightProcess.apply_settings, LightProcess.publish,
    i2c_led.get_state, i2c_led.set_torch_current, try_except_else,
    status_reply, bind, lift, ret, raise, emit.
  cbn [Py.contains Py.getitem]. rewrite Hs. cbn beta iota.
  cbn [Py.contains Py.getitem]. rewrite Hc. cbn beta iota.
  destruct (on (led m)); reflexivity.
Qed.

Lemma dict_get_nonempty items key v :
  Py.dict_get items key = Some v -> Py.truthy (JObj items) = true.
Proof. destruct items; [discriminate|reflexivity]. Qed.

Lemma treat_message_current repr items sitems current m :
  Py.dict_get items "settings" = Some (JObj sitems) ->
  Py.dict_get sitems "current" = Some current ->
  LightProcess.treat_message repr (Some (JObj items)) m =
  (Ok tt,
   add_events m
     (MQTT_read_message :: action_events items ++
      [status_reply (if on (led m) then LightProcess.msg_turn_off_first
                     else LightProcess.msg_error)])).
Proof.
  intros Hs Hc.
  assert (LightProcess.interpret repr (JObj items) (add_events m [MQTT_read_message]) =
          (Ok tt, add_events m
             (MQTT_read_message :: action_events items ++
              [status_reply (if on (led m) then LightProcess.msg_turn_off_first
                             else LightProcess.msg_error)]))) as Hi.
  { unfold LightProcess.interpret. rewrite (dict_get_nonempty _ _ _ Hs).
    unfold bind. rewrite apply_action_dict.
    rewrite (apply_settings_current repr items sitems current _ Hs Hc).
    rewrite !add_events_app. reflexivity. }
  unfold LightProcess.treat_message, LightProcess.treat_message_body,
    logger_catch, bind, lift, ret, emit.
  cbn [Py.contains].
  destruct (Py.dict_get items "action") as [action|] eqn:Ha; cbn beta iota.
  - fold (add_events m [MQTT_read_message]). rewrite Hi. reflexivity.
  - rewrite Hs. cbn [negb].
    fold (add_events m [MQTT_read_message]). rewrite Hi. reflexivity.
Qed.

Lemma treat_message_no_field repr items m :
  Py.dict_get items "action" = None ->
  Py.dict_get items "settings" = None ->
  LightProcess.treat_message repr (Some (JObj items)) m =
  (Ok tt,
   add_events m [MQTT_read_message; status_reply LightProcess.msg_no_field]).
Proof.
  intros Ha Hs.
  unfold LightProcess.treat_message, LightProcess.treat_message_body,
    LightProcess.publish, logger_catch, status_reply, bind, lift, ret, emit.
  cbn [Py.contains]. rewrite Ha, Hs. cbn [negb].
  unfold add_events. cbn [led trace bus bus_ops].
  rewrite <- app_assoc. reflexivity.
Qed.

Lemma action_events_quiet items :
  filter is_bus_event (action_events items) = []
  /\ ~ In (status_reply LightProcess.msg_turn_off_first) (action_events items)
  /\ ~ In (status_reply LightProcess.msg_error) (action_events items).
Proof.
  unfold action_events.
  destruct (Py.dict_get items "action") as [action|];
    [destruct (Py.eq_str action "on"); [|destruct (Py.eq_str action "off")]|];
    (split; [reflexivity|]); split; simpl; intros H;
    repeat (destruct H as [H|H]; [discriminate H|]); exact H.
Qed.

Lemma loop_events_quiet lit tr :
  Forall (loop_event lit) tr ->
  filter is_bus_event tr = []
  /\ ~ In (status_reply LightProcess.msg_dead) tr
  /\ ~ In GPIO_cleanup tr
  /\ (lit = false -> ~ In (status_reply LightProcess.msg_turn_off_first) tr).
Proof.
  induction 1 as [|e l He _ (IH1 & IH2 & IH3 & IH4)].
  - repeat split; auto.
  - repeat split.
    + destruct e; simpl in *; try contradiction; exact IH1.
    + intros [E|E]; [|exact (IH2 E)]. subst e. simpl in He.
      destruct He as (_ & Hd & _). now apply Hd.
    + intros [E|E]; [|exact (IH3 E)]. subst e. exact He.
    + intros Hl [E|E]; [|exact (IH4 Hl E)]. subst e. simpl in He.
      destruct He as (_ & _ & Hr). rewrite Hr in Hl; [discriminate|reflexivity].
Qed.

Lemma init_sets_flag_off m :
  on (led (snd (LightProcess.__init__ m))) = false.
Proof.
  unfold LightProcess.__init__, i2c_led.__init__, i2c_led.force_reset,
    i2c_led.get_flags, i2c_led.get_id, i2c_led._write_byte,
    i2c_led._read_byte, i2c_led.output_to_led1, i2c_led.clear_flags,
    i2c_led.decode_flags, bind, ret, emit, set_led, transact.
  cbn [led trace bus bus_ops].
  repeat (split_atom; cbn [led trace bus bus_ops snd on]); reflexivity.
Qed.

Lemma driver_keeps_flag m :
  on (led (snd (i2c_led.output_to_led1 m))) = on (led m)
  /\ on (led (snd (i2c_led.get_id m))) = on (led m)
  /\ on (led (snd (i2c_led.get_state m))) = on (led m)
  /\ on (led (snd (i2c_led.force_reset m))) = on (led m)
  /\ on (led (snd (i2c_led.get_flags m))) = on (led m)
  /\ (forall current,
        on (led (snd (i2c_led.set_flash_current current m))) = on (led m)).
Proof.
  unfold i2c_led.force_reset, i2c_led.get_flags, i2c_led.get_id,
    i2c_led.set_flash_current, i2c_led.get_state, i2c_led._write_byte,
    i2c_led._read_byte, i2c_led.output_to_led1, i2c_led.decode_flags,
    bind, ret, lift, emit, set_led, transact.
  cbn [led trace bus bus_ops].
  repeat split; try intros current;
    repeat (split_atom; cbn [led trace bus bus_ops snd on]); reflexivity.
Qed.

Lemma run_run repr polls m :
  exists loop_tr,
    LightProcess.loop repr polls
      (add_events m [MQTT_connect "light" "light_client";
                     status_reply LightProcess.msg_ready]) =
    (Ok tt,
     add_events m ([MQTT_connect "light" "light_client";
                    status_reply LightProcess.msg_ready] ++ loop_tr))
    /\ Forall (loop_event (on (led m))) loop_tr
    /\ List.length (filter is_sleep loop_tr) = List.length polls
    /\ LightProcess.run repr polls m =
       logger_catch LightProcess.shutdown
         (add_events m ([MQTT_connect "light" "light_client";
                         status_reply LightProcess.msg_ready] ++ loop_tr)).
Proof.
  destruct (loop_frame repr polls
              (add_events m [MQTT_connect "light" "light_client";
                             status_reply LightProcess.msg_ready]))
    as (tr & E & F & L).
  rewrite add_events_app in E.
  exists tr. repeat split; try assumption.
  unfold LightProcess.run, LightProcess.run_body, LightProcess.publish,
    logger_catch.
  unfold bind at 1. rewrite emit_add_events.
  unfold bind at 1. rewrite emit_add_events, add_events_app.
  unfold bind at 1. cbn [app]. cbn [app] in E. unfold status_reply in E.
  rewrite E. reflexivity.
Qed.

(** ** The controller *)

(** C1: what the code does with [{"settings":{"current":20}}] while the
    tracked flag is off.  [treat_message] calls [self.led.set_torch_current],
    which [i2c_led] does not define; the [AttributeError] is taken by the bare
    [except], so no register is written and the reply is the error status,
    not the confirmation [{"status":"Current set to 20mA"}]. *)
Theorem set_current_while_off_reports_error (repr : json -> string) (m : machine) :
  let off := with_on false m in
  LightProcess.treat_message repr (Some message_current_20) off =
  (Ok tt,
   add_events off [MQTT_read_message; status_reply LightProcess.msg_error])
  /\ filter is_register_write
       [MQTT_read_message; status_reply LightProcess.msg_error] = []
  /\ status_reply LightProcess.msg_error <> status_reply "Current set to 20mA"
  /\ i2c_led.flash_value 20 = Ok 1.
Proof.
  intros off. split; [|split; [|split]].
  - unfold message_current_20.
    rewrite (treat_message_current repr _ [("current", JInt 20)] (JInt 20) off);
      reflexivity.
  - reflexivity.
  - discriminate.
  - reflexivity.
Qed.

(** C2: what the code does with [{"action":"on"}].  The select line is driven
    once and [{"status":"Led 1: On"}] is published, but [led_on] assigns
    nothing to the tracked flag: on a freshly constructed process
    [get_state] still answers false afterwards. *)
Theorem action_on_leaves_flag_unset (repr : json -> string) (m : machine) :
  let m' := snd (LightProcess.treat_message repr (Some message_on) m) in
  LightProcess.treat_message repr (Some message_on) m =
  (Ok tt,
   add_events m [MQTT_read_message; GPIO_output 18 true;
                 status_reply LightProcess.msg_on])
  /\ fst (i2c_led.get_state m') = Ok (on (led m))
  /\ fst (i2c_led.get_state
            (snd (LightProcess.treat_message repr (Some message_on)
                    (snd (LightProcess.__init__ (power_on (fun _ => Some 0)))))))
     = Ok false.
Proof.
  assert (LightProcess.treat_message repr (Some message_on) m =
          (Ok tt,
           add_events m [MQTT_read_message; GPIO_output 18 true;
                         status_reply LightProcess.msg_on])) as E.
  { unfold_dispatch. unfold message_on, add_events, status_reply.
    cbn. rewrite <- !app_assoc. reflexivity. }
  intros m'. subst m'. split; [exact E|]. split.
  - rewrite E. reflexivity.
  - reflexivity.
Qed.

(** C5: a message with [settings.current] received while the tracked flag is
    on is answered by the action's events, if it carries an action, and then
    by [{"status":"Turn off the LED before changing the current"}], once;
    there is no bus transaction, so no register is written. *)
Theorem current_change_rejected_while_on (repr : json -> string)
    (items sitems : list (string * json)) (current : json) (m : machine) :
  Py.dict_get items "settings" = Some (JObj sitems) ->
  Py.dict_get sitems "current" = Some current ->
  on (led m) = true ->
  exists tr,
    LightProcess.treat_message repr (Some (JObj items)) m = (Ok tt, add_events m tr)
    /\ tr = MQTT_read_message :: action_events items
            ++ [status_reply LightProcess.msg_turn_off_first]
    /\ filter is_bus_event tr = []
    /\ ~ In (status_reply LightProcess.msg_turn_off_first) (action_events items)
    /\ (Py.dict_get items "action" = None ->
        tr = [MQTT_read_message; status_reply LightProcess.msg_turn_off_first]).
Proof.
  intros Hs Hc Hon.
  destruct (action_events_quiet items) as (Hq & Hr & _).
  eexists. split; [|split; [reflexivity|split; [|split]]].
  - rewrite (treat_message_current repr items sitems current m Hs Hc), Hon.
    reflexivity.
  - cbn [filter is_bus_event]. rewrite filter_app, Hq. reflexivity.
  - exact Hr.
  - intros Ha. unfold action_events. rewrite Ha. reflexivity.
Qed.

(** C6, as amended: a message on which both membership tests answer false,
    that is a dict with neither an ["action"] nor a ["settings"] key, or
    a string or a list that names neither, is marked read and answered by
    one status reply,
    [{"status":"Received message did not contain action or settings"}];
    nothing else happens: no GPIO or bus event, the driver object and the
    bus are as before. *)
Theorem message_without_fields_rejected (repr : json -> string) (m : machine) :
  (forall payload,
      Py.contains "action" payload = Ok false ->
      Py.contains "settings" payload = Ok false ->
      exists tr,
        LightProcess.treat_message repr (Some payload) m = (Ok tt, add_events m tr)
        /\ tr = [MQTT_read_message; status_reply LightProcess.msg_no_field]
        /\ filter is_publish tr = [status_reply LightProcess.msg_no_field]
        /\ filter is_chip_event tr = [])
  /\ (forall items,
        Py.dict_get items "action" = None ->
        Py.dict_get items "settings" = None ->
        exists tr,
          LightProcess.treat_message repr (Some (JObj items)) m
          = (Ok tt, add_events m tr)
          /\ tr = [MQTT_read_message; status_reply LightProcess.msg_no_field]
          /\ filter is_publish tr = [status_reply LightProcess.msg_no_field]
          /\ filter is_chip_event tr = []).
Proof.
  split.
  - intros payload Ha Hs. eexists. split; [|repeat split].
    unfold LightProcess.treat_message, LightProcess.treat_message_body,
      LightProcess.publish, logger_catch, bind, lift, ret, emit.
    rewrite Ha. cbn beta iota. rewrite Hs. cbn [negb].
    unfold add_events, status_reply. cbn [led trace bus bus_ops].
    rewrite <- app_assoc. reflexivity.
  - intros items Ha Hs. eexists.
    split; [apply treat_message_no_field; assumption|]. repeat split.
Qed.

(** C6, as stated, fails on a payload that is not a container: the number
    [5] has neither field, the membership test of the first check raises
    [TypeError], [@logger.catch] absorbs it, and no reply is published. *)
Lemma scalar_message_gets_no_rejection :
  Py.contains "action" (JInt 5) = Raise TypeError
  /\ LightProcess.treat_message sample_repr (Some (JInt 5))
       (power_on (fun _ => None))
     = (Ok tt, add_events (power_on (fun _ => None)) [MQTT_read_message])
  /\ ~ In (status_reply LightProcess.msg_no_field)
          (trace (snd (LightProcess.treat_message sample_repr (Some (JInt 5))
                         (power_on (fun _ => None)))))
  /\ filter is_publish
       (trace (snd (LightProcess.treat_message sample_repr (Some (JInt 5))
                      (power_on (fun _ => None))))) = [].
Proof.
  split; [reflexivity|]. split; [reflexivity|]. split; [|reflexivity].
  intros H. cbn in H. destruct H as [H|H]; [discriminate H|exact H].
Qed.

(** C7, as amended: [run] leaves the loop after every iteration has run to
    its end; no iteration published "Dead", released the GPIO or used the
    bus.  When the two bus transactions of the shutdown succeed it then
    performs, in this order, the write of [set_flash_current(1)] to the
    flash register, one read of the flags register, [GPIO.cleanup()], the
    publication of [{"status":"Dead"}] and the shutdown of the MQTT client.
    When the write fails nothing follows it; when the write succeeds and
    the flags read fails, nothing follows the read. *)
Theorem shutdown_sequence_in_order (repr : json -> string)
    (polls : list (option json)) (m : machine) :
  exists loop_tr,
    LightProcess.loop repr polls
      (add_events m [MQTT_connect "light" "light_client";
                     status_reply LightProcess.msg_ready]) =
    (Ok tt,
     add_events m ([MQTT_connect "light" "light_client";
                    status_reply LightProcess.msg_ready] ++ loop_tr))
    /\ List.length (filter is_sleep loop_tr) = List.length polls
    /\ filter is_bus_event loop_tr = []
    /\ ~ In (status_reply LightProcess.msg_dead) loop_tr
    /\ ~ In GPIO_cleanup loop_tr
    /\ (forall w byte,
          bus m (bus_ops m) = Some w ->
          bus m (S (bus_ops m)) = Some byte ->
          LightProcess.run repr polls m =
          (Ok tt,
           {| led := i2c_led.decode_flags byte (led m);
              trace := trace m
                       ++ [MQTT_connect "light" "light_client";
                           status_reply LightProcess.msg_ready]
                       ++ loop_tr
                       ++ [SMBus_write 0x64 0x03 0; SMBus_read 0x64 0x05;
                           GPIO_cleanup; status_reply LightProcess.msg_dead;
                           MQTT_shutdown];
              bus := bus m; bus_ops := S (S (bus_ops m)) |}))
    /\ (forall w,
          bus m (bus_ops m) = Some w ->
          bus m (S (bus_ops m)) = None ->
          LightProcess.run repr polls m =
          (Ok tt,
           {| led := led m;
              trace := trace m
                       ++ [MQTT_connect "light" "light_client";
                           status_reply LightProcess.msg_ready]
                       ++ loop_tr
                       ++ [SMBus_write 0x64 0x03 0; SMBus_read 0x64 0x05];
              bus := bus m; bus_ops := S (S (bus_ops m)) |}))
    /\ (bus m (bus_ops m) = None ->
        LightProcess.run repr polls m =
        (Ok tt,
         {| led := led m;
            trace := trace m
                     ++ [MQTT_connect "light" "light_client";
                         status_reply LightProcess.msg_ready]
                     ++ loop_tr
                     ++ [SMBus_write 0x64 0x03 0];
            bus := bus m; bus_ops := S (bus_ops m) |})).
Proof.
  destruct (run_run repr polls m) as (tr & E & F & L & R).
  destruct (loop_events_quiet _ _ F) as (Q1 & Q2 & Q3 & _).
  exists tr.
  split; [exact E|]. split; [exact L|]. split; [exact Q1|].
  split; [exact Q2|]. split; [exact Q3|].
  rewrite R. unfold logger_catch. rewrite shutdown_run.
  cbn [add_events led trace bus bus_ops].
  split; [|split].
  - intros w byte Hw Hr. rewrite Hw, Hr. rewrite <- app_assoc. reflexivity.
  - intros w Hw Hr. rewrite Hw, Hr. rewrite <- app_assoc. reflexivity.
  - intros Hw. rewrite Hw. rewrite <- app_assoc. reflexivity.
Qed.

(** C7, as stated, fails when the bus fails at shutdown: on a process whose
    construction succeeded and whose bus then stops answering, the write of
    the flash register raises, and neither the flags read, nor the GPIO
    release, nor the "Dead" publication happens. *)
Lemma shutdown_cut_short_by_bus_failure :
  fst (LightProcess.__init__ (power_on failing_after_start)) = Ok tt
  /\ trace (snd (LightProcess.run sample_repr []
                   (snd (LightProcess.__init__ (power_on failing_after_start)))))
     = trace (snd (LightProcess.__init__ (power_on failing_after_start)))
       ++ [MQTT_connect "light" "light_client";
           status_reply LightProcess.msg_ready; SMBus_write 0x64 0x03 0]
  /\ ~ In GPIO_cleanup
          (trace (snd (LightProcess.run sample_repr []
                         (snd (LightProcess.__init__
                                 (power_on failing_after_start))))))
  /\ ~ In (status_reply LightProcess.msg_dead)
          (trace (snd (LightProcess.run sample_repr []
                         (snd (LightProcess.__init__
                                 (power_on failing_after_start)))))).
Proof.
  split; [vm_compute; reflexivity|]. split; [vm_compute; reflexivity|].
  split; intros H; vm_compute in H;
    repeat (destruct H as [H|H]; [discriminate H|]); exact H.
Qed.

(** C8: a failure of the current-set call made by [treat_message] is taken
    by its bare [except] and answered by
    [{"status":"Error while setting the current, power cycle your machine"}];
    [treat_message] itself never raises, whatever the message and the bus,
    so the loop runs every one of its iterations and ends without an
    exception. *)
Theorem failures_absorbed_by_dispatch (repr : json -> string) :
  (forall (A : Type) (body : M A) (orelse : A -> M unit) (m m' : machine)
          (e : exn),
      body m = (Raise e, m') ->
      try_except_else body
        (LightProcess.publish (status LightProcess.msg_error)) orelse m =
      (Ok tt, add_events m' [status_reply LightProcess.msg_error]))
  /\ (forall items sitems current m,
        Py.dict_get items "settings" = Some (JObj sitems) ->
        Py.dict_get sitems "current" = Some current ->
        on (led m) = false ->
        LightProcess.treat_message repr (Some (JObj items)) m =
        (Ok tt,
         add_events m (MQTT_read_message :: action_events items
                       ++ [status_reply LightProcess.msg_error])))
  /\ (forall incoming m,
        fst (LightProcess.treat_message repr incoming m) = Ok tt)
  /\ (forall polls m,
        exists tr,
          LightProcess.loop repr polls m = (Ok tt, add_events m tr)
          /\ List.length (filter is_sleep tr) = List.length polls).
Proof.
  split; [|split; [|split]].
  - intros A body orelse m m' e H.
    unfold try_except_else. rewrite H. reflexivity.
  - intros items sitems current m Hs Hc Hoff.
    rewrite (treat_message_current repr items sitems current m Hs Hc), Hoff.
    reflexivity.
  - intros incoming m. apply treat_message_effect.
  - intros polls m.
    destruct (loop_frame repr polls m) as (tr & E & _ & L).
    exists tr. split; [exact E|exact L].
Qed.

(** C9: construction leaves the tracked flag off, and nothing sets it
    afterwards: [led_on], [treat_message] and every method of the driver
    leave it as it is.  So after any sequence of loop iterations on a
    constructed process [get_state] answers false, and
    [{"status":"Turn off the LED before changing the current"}] has not been
    published. *)
Theorem tracked_flag_stays_off (repr : json -> string) (m0 m1 : machine)
    (polls : list (option json)) :
  LightProcess.__init__ m0 = (Ok tt, m1) ->
  on (led m1) = false
  /\ (forall m, on (led (snd (LightProcess.led_on 0 m))) = on (led m))
  /\ (forall m, on (led (snd (LightProcess.led_off 0 m))) = on (led m))
  /\ (forall incoming m,
        led (snd (LightProcess.treat_message repr incoming m)) = led m)
  /\ (forall m,
        on (led (snd (i2c_led.output_to_led1 m))) = on (led m)
        /\ on (led (snd (i2c_led.get_id m))) = on (led m)
        /\ on (led (snd (i2c_led.get_state m))) = on (led m)
        /\ on (led (snd (i2c_led.force_reset m))) = on (led m)
        /\ on (led (snd (i2c_led.get_flags m))) = on (led m)
        /\ (forall current,
              on (led (snd (i2c_led.set_flash_current current m)))
              = on (led m)))
  /\ exists tr,
       LightProcess.loop repr polls m1 = (Ok tt, add_events m1 tr)
       /\ fst (i2c_led.get_state (add_events m1 tr)) = Ok false
       /\ ~ In (status_reply LightProcess.msg_turn_off_first) tr.
Proof.
  intros Hinit.
  assert (on (led m1) = false) as Hoff.
  { pose proof (init_sets_flag_off m0) as H. rewrite Hinit in H. exact H. }
  split; [exact Hoff|].
  split; [intros m; reflexivity|].
  split; [intros m; reflexivity|].
  split; [intros incoming m; apply treat_message_effect|].
  split; [exact driver_keeps_flag|].
  destruct (loop_frame repr polls m1) as (tr & E & F & _).
  destruct (loop_events_quiet _ _ F) as (_ & _ & _ & Q).
  exists tr. split; [exact E|]. split.
  - unfold i2c_led.get_state, add_events. cbn [fst led]. now rewrite Hoff.
  - exact (Q Hoff).
Qed.

(** ** The theorems at concrete inputs *)

(** The flags byte [0b00100101]: flash timeout, thermal shutdown and
    VLED short. *)
Lemma get_flags_fixed_bit_positions_witness :
  bus (power_on (fun _ => Some 0x25)) (bus_ops (power_on (fun _ => Some 0x25)))
  = Some 0x25
  /\ fst (i2c_led.get_flags (power_on (fun _ => Some 0x25))) = Ok 0x25
  /\ flash_timeout (led (snd (i2c_led.get_flags (power_on (fun _ => Some 0x25)))))
     = Z.testbit 0x25 0.
Proof.
  split; [reflexivity|].
  pose proof (get_flags_fixed_bit_positions
                (power_on (fun _ => Some 0x25)) 0x25 eq_refl) as H.
  split; [exact (proj1 H)|exact (proj1 (proj2 H))].
Defined.

(** 20 mA, the scenario of the specification: register value 1. *)
Lemma set_flash_current_exact_floor_witness :
  11 <= 20 <= 1500
  /\ exists value,
       i2c_led.flash_value 20 = Ok value
       /\ value = 20 * 17 / 200
       /\ 200 * value <= 17 * 20 < 200 * (value + 1)
       /\ trace (snd (i2c_led.set_flash_current 20 (power_on (fun _ => Some 0)))) =
          trace (power_on (fun _ => Some 0)) ++ [SMBus_write 0x64 0x03 value].
Proof.
  split; [lia|].
  apply (set_flash_current_exact_floor (power_on (fun _ => Some 0)) 20); lia.
Defined.

(** [{"settings":{"current":20}}] on a machine whose flag is on. *)
Lemma current_change_rejected_while_on_witness :
  Py.dict_get [("settings", JObj [("current", JInt 20)])] "settings"
  = Some (JObj [("current", JInt 20)])
  /\ Py.dict_get [("current", JInt 20)] "current" = Some (JInt 20)
  /\ on (led (with_on true (power_on (fun _ => Some 0)))) = true
  /\ exists tr,
       LightProcess.treat_message sample_repr (Some message_current_20)
         (with_on true (power_on (fun _ => Some 0)))
       = (Ok tt, add_events (with_on true (power_on (fun _ => Some 0))) tr)
       /\ tr = MQTT_read_message
               :: action_events [("settings", JObj [("current", JInt 20)])]
               ++ [status_reply LightProcess.msg_turn_off_first]
       /\ filter is_bus_event tr = [].
Proof.
  split; [reflexivity|]. split; [reflexivity|]. split; [reflexivity|].
  destruct (current_change_rejected_while_on sample_repr
              [("settings", JObj [("current", JInt 20)])]
              [("current", JInt 20)] (JInt 20)
              (with_on true (power_on (fun _ => Some 0)))
              eq_refl eq_refl eq_refl) as (tr & H1 & H2 & H3 & _).
  exists tr. split; [exact H1|]. split; [exact H2|exact H3].
Defined.

(** [{"foo":"bar"}], the scenario of the specification. *)
Lemma message_without_fields_rejected_witness :
  Py.contains "action" message_foo_bar = Ok false
  /\ Py.contains "settings" message_foo_bar = Ok false
  /\ Py.dict_get [("foo", JStr "bar")] "action" = None
  /\ Py.dict_get [("foo", JStr "bar")] "settings" = None
  /\ exists tr,
       LightProcess.treat_message sample_repr (Some message_foo_bar)
         (power_on (fun _ => Some 0))
       = (Ok tt, add_events (power_on (fun _ => Some 0)) tr)
       /\ tr = [MQTT_read_message; status_reply LightProcess.msg_no_field].
Proof.
  split; [reflexivity|]. split; [reflexivity|].
  split; [reflexivity|]. split; [reflexivity|].
  destruct (proj1 (message_without_fields_rejected sample_repr
                     (power_on (fun _ => Some 0)))
              message_foo_bar eq_refl eq_refl) as (tr & H1 & H2 & _).
  exists tr. split; [exact H1|exact H2].
Defined.

(** A run of two iterations, the first of which turns the light on, on a
    bus that answers every transaction. *)
Lemma shutdown_sequence_in_order_witness :
  bus (power_on (fun _ => Some 0)) (bus_ops (power_on (fun _ => Some 0)))
  = Some 0
  /\ bus (power_on (fun _ => Some 0)) (S (bus_ops (power_on (fun _ => Some 0))))
     = Some 0
  /\ exists loop_tr,
       ~ In (status_reply LightProcess.msg_dead) loop_tr
       /\ trace (snd (LightProcess.run sample_repr [Some message_on; None]
                        (power_on (fun _ => Some 0))))
          = [MQTT_connect "light" "light_client";
             status_reply LightProcess.msg_ready]
            ++ loop_tr
            ++ [SMBus_write 0x64 0x03 0; SMBus_read 0x64 0x05;
                GPIO_cleanup; status_reply LightProcess.msg_dead;
                MQTT_shutdown].
Proof.
  split; [reflexivity|]. split; [reflexivity|].
  destruct (shutdown_sequence_in_order sample_repr [Some message_on; None]
              (power_on (fun _ => Some 0)))
    as (tr & _ & _ & _ & Hd & _ & Hrun & _).
  exists tr. split; [exact Hd|].
  rewrite (Hrun 0 0 eq_refl eq_refl). reflexivity.
Defined.

(** [{"settings":{"current":20}}] on a machine at power-on, and a body that
    raises [OSError]. *)
Lemma failures_absorbed_by_dispatch_witness :
  (@raise unit OSError (power_on (fun _ => None))
   = (Raise OSError, power_on (fun _ => None))
   /\ try_except_else (@raise unit OSError)
        (LightProcess.publish (status LightProcess.msg_error))
        (fun _ => ret tt) (power_on (fun _ => None))
      = (Ok tt, add_events (power_on (fun _ => None))
                  [status_reply LightProcess.msg_error]))
  /\ (Py.dict_get [("settings", JObj [("current", JInt 20)])] "settings"
      = Some (JObj [("current", JInt 20)])
      /\ Py.dict_get [("current", JInt 20)] "current" = Some (JInt 20)
      /\ on (led (power_on (fun _ => None))) = false
      /\ LightProcess.treat_message sample_repr (Some message_current_20)
           (power_on (fun _ => None))
         = (Ok tt,
            add_events (power_on (fun _ => None))
              (MQTT_read_message
               :: action_events [("settings", JObj [("current", JInt 20)])]
               ++ [status_reply LightProcess.msg_error]))).
Proof.
  pose proof (failures_absorbed_by_dispatch sample_repr) as (H1 & H2 & _).
  split.
  - split; [reflexivity|].
    exact (H1 unit (@raise unit OSError) (fun _ => ret tt)
             (power_on (fun _ => None)) (power_on (fun _ => None)) OSError
             eq_refl).
  - split; [reflexivity|]. split; [reflexivity|]. split; [reflexivity|].
    exact (H2 [("settings", JObj [("current", JInt 20)])]
             [("current", JInt 20)] (JInt 20) (power_on (fun _ => None))
             eq_refl eq_refl eq_refl).
Defined.

(** A process constructed on a bus that answers every transaction, then
    sent [{"action":"on"}] and [{"settings":{"current":20}}]. *)
Lemma tracked_flag_stays_off_witness :
  LightProcess.__init__ (power_on (fun _ => Some 0))
  = (Ok tt, snd (LightProcess.__init__ (power_on (fun _ => Some 0))))
  /\ exists tr,
       LightProcess.loop sample_repr
         [Some message_on; Some message_current_20]
         (snd (LightProcess.__init__ (power_on (fun _ => Some 0))))
       = (Ok tt,
          add_events (snd (LightProcess.__init__ (power_on (fun _ => Some 0)))) tr)
       /\ fst (i2c_led.get_state
                 (add_events
                    (snd (LightProcess.__init__ (power_on (fun _ => Some 0)))) tr))
          = Ok false
       /\ ~ In (status_reply LightProcess.msg_turn_off_first) tr.
Proof.
  assert (LightProcess.__init__ (power_on (fun _ => Some 0))
          = (Ok tt, snd (LightProcess.__init__ (power_on (fun _ => Some 0)))))
    as Hinit by (vm_compute; reflexivity).
  split; [exact Hinit|].
  exact (proj2 (proj2 (proj2 (proj2 (proj2
           (tracked_flag_stays_off sample_repr
              (power_on (fun _ => Some 0))
              (snd (LightProcess.__init__ (power_on (fun _ => Some 0))))
              [Some message_on; Some message_current_20] Hinit)))))).
Defined.

(** * Further properties of the driver and of the controller *)

(** ** Construction and register reads *)

Lemma flags_cleared_or_zero byte self :
  on self = false ->
  (if Py.bool_of_int byte then i2c_led.clear_flags (i2c_led.decode_flags byte self)
   else i2c_led.decode_flags byte self) = all_clear.
Proof.
  intros Hon. unfold Py.bool_of_int.
  destruct (Z.eqb_spec byte 0) as [->|_]; cbn [negb].
  - unfold i2c_led.decode_flags. cbn. now rewrite Hon.
  - unfold i2c_led.clear_flags, i2c_led.decode_flags. cbn [on]. now rewrite Hon.
Qed.

Lemma i2c_led_init_run m :
  i2c_led.__init__ m =
  let boot := [GPIO_setwarnings false; GPIO_setmode_BCM; GPIO_setup_OUT 18;
               GPIO_output 18 true; SMBus_write 0x64 0x06 0x80] in
  match bus m (bus_ops m) with
  | None =>
      (Raise OSError,
       {| led := all_clear; trace := trace m ++ boot;
          bus := bus m; bus_ops := S (bus_ops m) |})
  | Some _ =>
      match bus m (S (bus_ops m)) with
      | None =>
          (Raise OSError,
           {| led := all_clear; trace := trace m ++ boot ++ [SMBus_read 0x64 0x05];
              bus := bus m; bus_ops := S (S (bus_ops m)) |})
      | Some _ =>
          (match bus m (S (S (bus_ops m))) with
           | None => Raise OSError
           | Some _ => Ok tt
           end,
           {| led := all_clear;
              trace := trace m ++ boot ++ [SMBus_read 0x64 0x05; SMBus_read 0x64 0x06];
              bus := bus m; bus_ops := S (S (S (bus_ops m))) |})
      end
  end.
Proof.
  unfold i2c_led.__init__, i2c_led.force_reset, i2c_led.get_flags,
    i2c_led.get_id, i2c_led._write_byte, i2c_led._read_byte,
    i2c_led.output_to_led1, bind, ret, emit, set_led, transact.
  cbn [led trace bus bus_ops VLED_short thermal_scale thermal_shutdown UVLO
       flash_timeout IVFM]. cbv zeta. fold all_clear.
  destruct (bus m (bus_ops m)) as [w|]; cbn [led trace bus bus_ops].
  2:{ rewrite <- !app_assoc. reflexivity. }
  destruct (bus m (S (bus_ops m))) as [byte|]; cbn [led trace bus bus_ops].
  2:{ rewrite <- !app_assoc. reflexivity. }
  pose proof (flags_cleared_or_zero byte all_clear eq_refl) as Hc.
  destruct (Py.bool_of_int byte); cbn [led trace bus bus_ops];
    rewrite Hc; destruct (bus m (S (S (bus_ops m)))) as [i|];
    cbn [led trace bus bus_ops]; rewrite <- !app_assoc; reflexivity.
Qed.

(** X1: when its three bus transactions succeed, the construction of the
    driver drives the select line high, writes the reset byte, reads the
    flags and the id registers, in that order, and leaves all six fault
    attributes and the tracked flag false, whatever byte the flags register
    returned. *)
Theorem driver_construction_clears_flags (m : machine) (a byte c : Z) :
  bus m (bus_ops m) = Some a ->
  bus m (S (bus_ops m)) = Some byte ->
  bus m (S (S (bus_ops m))) = Some c ->
  i2c_led.__init__ m =
  (Ok tt,
   {| led := all_clear;
      trace := trace m ++ [GPIO_setwarnings false; GPIO_setmode_BCM;
                           GPIO_setup_OUT 18; GPIO_output 18 true;
                           SMBus_write 0x64 0x06 0x80; SMBus_read 0x64 0x05;
                           SMBus_read 0x64 0x06];
      bus := bus m; bus_ops := S (S (S (bus_ops m))) |}).
Proof.
  intros Ha Hb Hc. rewrite i2c_led_init_run. cbv zeta.
  rewrite Ha, Hb, Hc. reflexivity.
Qed.

(** X2: the construction of the process succeeds exactly when the three bus
    transactions of the driver's construction succeed, and otherwise raises
    [OSError]; the select line is driven and the reset write attempted in
    every case, the half-second sleep happens only on success, and nothing
    follows a failed reset write. *)
Theorem process_construction_outcome (m : machine) :
  exists tr,
    trace (snd (LightProcess.__init__ m)) =
    trace m ++ [GPIO_setwarnings false; GPIO_setmode_BCM; GPIO_setup_OUT 18;
                GPIO_output 18 true; SMBus_write 0x64 0x06 0x80] ++ tr
    /\ led (snd (LightProcess.__init__ m)) = all_clear
    /\ (fst (LightProcess.__init__ m) = Ok tt
        <-> bus m (bus_ops m) <> None
            /\ bus m (S (bus_ops m)) <> None
            /\ bus m (S (S (bus_ops m))) <> None)
    /\ (fst (LightProcess.__init__ m) = Ok tt
        \/ fst (LightProcess.__init__ m) = Raise OSError)
    /\ (In (Sleep 500) tr <-> fst (LightProcess.__init__ m) = Ok tt)
    /\ (bus m (bus_ops m) = None -> tr = []).
Proof.
  unfold LightProcess.__init__, i2c_led.output_to_led1, bind, emit.
  rewrite i2c_led_init_run. cbv zeta.
  destruct (bus m (bus_ops m)) as [a|];
    [destruct (bus m (S (bus_ops m))) as [byte|];
     [destruct (bus m (S (S (bus_ops m)))) as [c|]|]|];
    cbn [fst snd led trace bus bus_ops].
  - exists [SMBus_read 0x64 0x05; SMBus_read 0x64 0x06; GPIO_output 18 true; Sleep 500].
    split; [rewrite <- !app_assoc; reflexivity|].
    split; [reflexivity|]. split; [split; [intros _; repeat split; discriminate|reflexivity]|].
    split; [left; reflexivity|]. split; [|discriminate].
    split; [reflexivity|]. intros _. cbn. auto 10.
  - exists [SMBus_read 0x64 0x05; SMBus_read 0x64 0x06].
    split; [reflexivity|]. split; [reflexivity|].
    split; [split; [discriminate|intros (_ & _ & H); now elim H]|].
    split; [right; reflexivity|]. split; [|discriminate].
    split; [|discriminate]. cbn. intros [H|[H|[]]]; discriminate H.
  - exists [SMBus_read 0x64 0x05].
    split; [reflexivity|]. split; [reflexivity|].
    split; [split; [discriminate|intros (_ & H & _); now elim H]|].
    split; [right; reflexivity|]. split; [|discriminate].
    split; [|discriminate]. cbn. intros [H|[]]; discriminate H.
  - exists [].
    split; [reflexivity|]. split; [reflexivity|].
    split; [split; [discriminate|intros (H & _); now elim H]|].
    split; [right; reflexivity|]. split; [|reflexivity].
    split; [intros []|discriminate].
Qed.

Lemma get_id_run m byte :
  bus m (bus_ops m) = Some byte ->
  i2c_led.get_id m =
  (Ok (Z.land byte 0x3f),
   {| led := led m; trace := trace m ++ [SMBus_read 0x64 0x06];
      bus := bus m; bus_ops := S (bus_ops m) |}).
Proof.
  intros H. unfold i2c_led.get_id, i2c_led._read_byte, bind, emit, transact, ret.
  cbn [led trace bus bus_ops]. rewrite H. reflexivity.
Qed.

(** X3: [get_id] makes one read of the id/reset register and returns the
    low six bits of the byte, a number from 0 to 63; the attributes of the
    driver are not touched. *)
Theorem get_id_low_six_bits (m : machine) (byte : Z) :
  bus m (bus_ops m) = Some byte ->
  exists led_id,
    i2c_led.get_id m =
    (Ok led_id,
     {| led := led m; trace := trace m ++ [SMBus_read 0x64 0x06];
        bus := bus m; bus_ops := S (bus_ops m) |})
    /\ led_id = byte mod 64
    /\ 0 <= led_id <= 63
    /\ (forall k, 0 <= k -> Z.testbit led_id k = Z.testbit byte k && (k <? 6)).
Proof.
  intros H. exists (Z.land byte 0x3f). split; [exact (get_id_run m byte H)|].
  assert (Z.land byte 0x3f = byte mod 64) as E.
  { change 0x3f with (Z.ones 6). rewrite Z.land_ones by lia. reflexivity. }
  split; [exact E|]. split.
  - rewrite E. pose proof (Z.mod_pos_bound byte 64 ltac:(lia)). lia.
  - intros k Hk. change 0x3f with (Z.ones 6).
    rewrite Z.land_spec. f_equal.
    destruct (Z.ltb_spec k 6).
    + apply Z.ones_spec_low. lia.
    + apply Z.ones_spec_high. lia.
Qed.

(** X4: when the read of the flags register fails, [get_flags] raises
    [OSError] after that one transaction and the six fault attributes keep
    the values they had. *)
Theorem get_flags_failed_read_keeps_snapshot (m : machine) :
  bus m (bus_ops m) = None ->
  i2c_led.get_flags m =
  (Raise OSError,
   {| led := led m; trace := trace m ++ [SMBus_read 0x64 0x05];
      bus := bus m; bus_ops := S (bus_ops m) |}).
Proof.
  intros H.
  unfold i2c_led.get_flags, i2c_led._read_byte, bind, emit, transact, set_led, ret.
  cbn [led trace bus bus_ops]. rewrite H. reflexivity.
Qed.

(** X5: the fault attributes are a snapshot of the last read: after two
    successive [get_flags] they are what the second byte alone decodes to,
    and the second byte is what is returned. *)
Theorem get_flags_twice_keeps_last (m : machine) (first second : Z) :
  bus m (bus_ops m) = Some first ->
  bus m (S (bus_ops m)) = Some second ->
  (_ <- i2c_led.get_flags ;; i2c_led.get_flags)%py m =
  (Ok second,
   {| led := i2c_led.decode_flags second (led m);
      trace := trace m ++ [SMBus_read 0x64 0x05; SMBus_read 0x64 0x05];
      bus := bus m; bus_ops := S (S (bus_ops m)) |}).
Proof.
  intros H1 H2. unfold bind. rewrite (get_flags_run m first H1).
  rewrite get_flags_run with (byte := second) by exact H2.
  cbn [led trace bus bus_ops]. rewrite <- app_assoc. reflexivity.
Qed.

(** ** The current-to-register mapping *)

(** X6: for a current of 0 to 1500 mA the value written to the flash
    register lies between 0 and 127, and it is 0 exactly for the currents
    up to 11 mA: the lowest current of the documented range still writes
    0. *)
Theorem flash_value_fits_seven_bits (current : Z) :
  0 <= current <= 1500 ->
  exists value,
    i2c_led.flash_value current = Ok value
    /\ 0 <= value <= 127
    /\ (value = 0 <-> current <= 11).
Proof.
  intros H. exists (current * 17 / 200).
  split; [apply flash_value_table; exact H|].
  pose proof (Z.div_mod (current * 17) 200 ltac:(lia)) as D.
  pose proof (Z.mod_pos_bound (current * 17) 200 ltac:(lia)) as B.
  split; [lia|]. split; intros; lia.
Qed.

(** X7: on 0 to 1500 mA the register value never decreases when the
    requested current increases. *)
Theorem flash_value_monotone (low high : Z) :
  0 <= low -> low <= high -> high <= 1500 ->
  exists v w,
    i2c_led.flash_value low = Ok v
    /\ i2c_led.flash_value high = Ok w
    /\ v <= w.
Proof.
  intros H0 H1 H2. exists (low * 17 / 200), (high * 17 / 200).
  split; [apply flash_value_table; lia|].
  split; [apply flash_value_table; lia|].
  apply Z.div_le_mono; lia.
Qed.

Lemma round53_zero : PyFloat.round53 0 = (0, 0).
Proof. reflexivity. Qed.

(** X8: [set_flash_current] does not reject a negative current:
    [int(current * 0.085)] truncates toward zero, so the value computed for
    [-current] is the opposite of the value computed for [current]. *)
Theorem flash_value_odd (current : Z) :
  i2c_led.flash_value (- current) =
  match i2c_led.flash_value current with
  | Ok value => Ok (- value)
  | Raise e => Raise e
  end.
Proof.
  unfold i2c_led.flash_value, PyFloat.of_int.
  rewrite Z.abs_opp.
  destruct (Z.eq_dec current 0) as [->|Hnz]; [reflexivity|].
  destruct (PyFloat.round53 (Z.abs current)) as [m e].
  destruct (Z.shiftl 1 1024 <=? Z.shiftl m e); [reflexivity|].
  f_equal. unfold PyFloat.mul, PyFloat.to_int.
  cbn [PyFloat.neg PyFloat.man PyFloat.exp PyFloat.lit_0_085].
  destruct (PyFloat.round53 (m * 6124895493223875)) as [p sh].
  cbn [PyFloat.neg PyFloat.man PyFloat.exp].
  rewrite !xorb_false_r.
  destruct (Z.ltb_spec (- current) 0), (Z.ltb_spec current 0); try lia.
Qed.

Lemma round53_exact n : 0 <= n < 2 ^ 53 -> PyFloat.round53 n = (n, 0).
Proof.
  intros H. unfold PyFloat.round53.
  assert (Z.log2 n + 1 <= 53) as L.
  { destruct (Z.eq_dec n 0) as [->|Hn]; [cbn; lia|].
    assert (Z.log2 n < 53) by (apply Z.log2_lt_pow2; lia). lia. }
  apply Z.leb_le in L. rewrite L. reflexivity.
Qed.

(** X9: for an integer of magnitude below 2^53 the conversion cannot raise
    and [set_flash_current] makes its one bus transaction; when the
    conversion does raise (the integer is too large for a float, as 2^1024
    is), the exception leaves [set_flash_current] before the bus is used:
    the machine is unchanged. *)
Theorem set_flash_current_conversion_errors (m : machine) :
  (forall current,
      Z.abs current < 2 ^ 53 ->
      exists value,
        i2c_led.flash_value current = Ok value
        /\ trace (snd (i2c_led.set_flash_current current m)) =
           trace m ++ [SMBus_write 0x64 0x03 value]
        /\ bus_ops (snd (i2c_led.set_flash_current current m)) = S (bus_ops m))
  /\ (forall current e,
        i2c_led.flash_value current = Raise e ->
        i2c_led.set_flash_current current m = (Raise e, m))
  /\ i2c_led.flash_value (2 ^ 1024) = Raise OverflowError.
Proof.
  split; [|split].
  - intros current H.
    assert (exists value, i2c_led.flash_value current = Ok value) as [value E].
    { unfold i2c_led.flash_value, PyFloat.of_int.
      rewrite round53_exact by lia.
      rewrite Z.shiftl_0_r.
      assert ((Z.shiftl 1 1024 <=? Z.abs current) = false) as ->.
      { apply Z.leb_gt. rewrite Z.shiftl_1_l.
        apply Z.lt_trans with (2 ^ 53); [exact H|].
        apply Z.pow_lt_mono_r; lia. }
      eexists. reflexivity. }
    exists value. split; [exact E|].
    rewrite (set_flash_current_run m current value E). split; reflexivity.
  - intros current e H.
    unfold i2c_led.set_flash_current, bind, lift. rewrite H. reflexivity.
  - vm_compute. reflexivity.
Qed.

(** ** Messages the dispatch step does not understand *)

Lemma treat_message_dict repr items m :
  Py.dict_get items "action" <> None \/ Py.dict_get items "settings" <> None ->
  LightProcess.treat_message repr (Some (JObj items)) m =
  logger_catch (LightProcess.apply_settings repr (JObj items))
    (add_events m (MQTT_read_message :: action_events items)).
Proof.
  intros H.
  assert (Py.truthy (JObj items) = true) as Ht.
  { destruct items; [|reflexivity]. destruct H as [H|H]; now elim H. }
  assert (LightProcess.interpret repr (JObj items) (add_events m [MQTT_read_message]) =
          LightProcess.apply_settings repr (JObj items)
            (add_events m (MQTT_read_message :: action_events items))) as Hi.
  { unfold LightProcess.interpret. rewrite Ht. unfold bind.
    rewrite apply_action_dict, add_events_app. reflexivity. }
  unfold LightProcess.treat_message, LightProcess.treat_message_body.
  unfold logger_catch at 1. unfold bind, lift, ret, emit.
  cbn [Py.contains].
  destruct (Py.dict_get items "action") as [action|] eqn:Ha; cbn beta iota.
  - fold (add_events m [MQTT_read_message]). rewrite Hi. reflexivity.
  - destruct (Py.dict_get items "settings") as [settings|] eqn:Hs;
      [|destruct H as [H|H]; now elim H].
    cbn [negb]. fold (add_events m [MQTT_read_message]). rewrite Hi. reflexivity.
Qed.

(** X10: a dict whose action is ["off"], without settings, is answered by
    [{"status":"Led 1: Off"}] and nothing else: [led_off] drives no GPIO
    line and writes no register. *)
Theorem action_off_touches_no_hardware (repr : json -> string)
    (items : list (string * json)) (action : json) (m : machine) :
  Py.dict_get items "action" = Some action ->
  Py.eq_str action "off" = true ->
  Py.dict_get items "settings" = None ->
  LightProcess.treat_message repr (Some (JObj items)) m =
  (Ok tt, add_events m [MQTT_read_message; status_reply LightProcess.msg_off])
  /\ filter is_chip_event
       [MQTT_read_message; status_reply LightProcess.msg_off] = [].
Proof.
  intros Ha Hoff Hs. split; [|reflexivity].
  rewrite treat_message_dict by (left; congruence).
  assert (Py.eq_str action "on" = false) as Hon.
  { destruct action; try reflexivity. cbn in *.
    apply String.eqb_eq in Hoff. subst. reflexivity. }
  unfold action_events. rewrite Ha, Hon, Hoff.
  unfold logger_catch, LightProcess.apply_settings, bind, lift, ret.
  cbn [Py.contains]. rewrite Hs. reflexivity.
Qed.

(** X11: a dict whose action is neither ["on"] nor ["off"], without
    settings, is marked read and gets no reply and no chip operation. *)
Theorem unknown_action_gets_no_reply (repr : json -> string)
    (items : list (string * json)) (action : json) (m : machine) :
  Py.dict_get items "action" = Some action ->
  Py.eq_str action "on" = false ->
  Py.eq_str action "off" = false ->
  Py.dict_get items "settings" = None ->
  LightProcess.treat_message repr (Some (JObj items)) m =
  (Ok tt, add_events m [MQTT_read_message]).
Proof.
  intros Ha Hon Hoff Hs.
  rewrite treat_message_dict by (left; congruence).
  unfold action_events. rewrite Ha, Hon, Hoff.
  unfold logger_catch, LightProcess.apply_settings, bind, lift, ret.
  cbn [Py.contains]. rewrite Hs. reflexivity.
Qed.

(** X12: a dict whose settings are a dict without a ["current"] key is
    answered, after the events of its action, by one
    "Settings request not understood in ..." status carrying the text of
    the whole message. *)
Theorem settings_without_current_reported (repr : json -> string)
    (items sitems : list (string * json)) (m : machine) :
  Py.dict_get items "settings" = Some (JObj sitems) ->
  Py.dict_get sitems "current" = None ->
  LightProcess.treat_message repr (Some (JObj items)) m =
  (Ok tt,
   add_events m
     (MQTT_read_message :: action_events items
      ++ [status_reply ("Settings request not understood in "
                        ++ repr (JObj items))%string])).
Proof.
  intros Hs Hc.
  rewrite treat_message_dict by (right; congruence).
  unfold logger_catch, LightProcess.apply_settings, LightProcess.publish,
    bind, lift, ret.
  cbn [Py.contains Py.getitem]. rewrite Hs. cbn [Py.contains]. rewrite Hc.
  rewrite emit_add_events, add_events_app. reflexivity.
Qed.

(** X13: when the settings of a dict cannot be searched for ["current"]
    (a number, a boolean, null) or cannot be subscripted by it (a string or
    a list containing "current"), the [TypeError] is absorbed by
    [@logger.catch]: the action has been carried out, and the settings get
    no reply. *)
Theorem malformed_settings_get_no_reply (repr : json -> string)
    (items : list (string * json)) (settings : json) (m : machine) :
  Py.dict_get items "settings" = Some settings ->
  (exists e, Py.contains "current" settings = Raise e)
  \/ (Py.contains "current" settings = Ok true
      /\ exists e, Py.getitem settings "current" = Raise e) ->
  LightProcess.treat_message repr (Some (JObj items)) m =
  (Ok tt, add_events m (MQTT_read_message :: action_events items)).
Proof.
  intros Hs H.
  rewrite treat_message_dict by (right; congruence).
  unfold logger_catch, LightProcess.apply_settings, bind, lift, ret.
  cbn [Py.contains Py.getitem]. rewrite Hs. cbn beta iota.
  destruct H as [[e He]|[Hc [e He]]].
  - rewrite He. reflexivity.
  - rewrite Hc. cbn beta iota. rewrite He. reflexivity.
Qed.

(** X14: a payload on which the first membership test raises (a number, a
    boolean, null) is marked read and gets no reply at all. *)
Theorem scalar_payload_gets_no_reply (repr : json -> string)
    (payload : json) (e : exn) (m : machine) :
  Py.contains "action" payload = Raise e ->
  LightProcess.treat_message repr (Some payload) m =
  (Ok tt, add_events m [MQTT_read_message]).
Proof.
  intros H.
  unfold LightProcess.treat_message, LightProcess.treat_message_body,
    logger_catch, bind, lift, emit.
  rewrite H. reflexivity.
Qed.

(** X15: any payload on which both membership tests answer false, a dict
    but also a string or a list, is answered by the one status
    "Received message did not contain action or settings". *)
Theorem payload_without_fields_rejected (repr : json -> string)
    (payload : json) (m : machine) :
  Py.contains "action" payload = Ok false ->
  Py.contains "settings" payload = Ok false ->
  LightProcess.treat_message repr (Some payload) m =
  (Ok tt,
   add_events m [MQTT_read_message; status_reply LightProcess.msg_no_field]).
Proof.
  intros Ha Hs.
  unfold LightProcess.treat_message, LightProcess.treat_message_body,
    LightProcess.publish, logger_catch, bind, lift, ret, emit.
  rewrite Ha. cbn beta iota. rewrite Hs. cbn [negb].
  unfold add_events, status_reply. cbn [led trace bus bus_ops].
  rewrite <- app_assoc. reflexivity.
Qed.

(** X16: a string payload that contains "action" or "settings" passes the
    first check, fails when it is subscripted, and gets no reply. *)
Theorem string_payload_naming_a_field_gets_no_reply (repr : json -> string)
    (s : string) (m : machine) :
  Py.substring "action" s = true \/ Py.substring "settings" s = true ->
  LightProcess.treat_message repr (Some (JStr s)) m =
  (Ok tt, add_events m [MQTT_read_message]).
Proof.
  intros H.
  assert (Py.truthy (JStr s) = true) as Ht.
  { destruct s; [|reflexivity]. destruct H as [H|H]; discriminate H. }
  unfold LightProcess.treat_message, LightProcess.treat_message_body,
    LightProcess.interpret, LightProcess.apply_action,
    LightProcess.apply_settings, logger_catch, bind, lift, ret, emit.
  rewrite Ht. cbn [Py.contains Py.getitem].
  destruct (Py.substring "action" s) eqn:Ha; cbn beta iota.
  - reflexivity.
  - destruct H as [H|H]; [discriminate H|]. rewrite H. cbn [negb].
    reflexivity.
Qed.

(** ** Bounds on a step, and the whole run *)

(** X17: one call of [treat_message] adds at most four events to the
    trace, at most two of them publications and at most one an operation on
    the chip's lines; without a new message it adds nothing. *)
Theorem dispatch_step_is_bounded (repr : json -> string)
    (incoming : option json) (m : machine) :
  exists tr,
    trace (snd (LightProcess.treat_message repr incoming m)) = trace m ++ tr
    /\ (List.length (filter is_publish tr) <= 2)%nat
    /\ (List.length (filter is_chip_event tr) <= 1)%nat
    /\ (List.length tr <= 4)%nat
    /\ (incoming = None -> tr = []).
Proof.
  unfold_dispatch.
  destruct incoming as [last_message|]; cbn beta iota;
    repeat (split_atom; cbn beta iota);
    cbn [fst snd led bus bus_ops trace];
    simpl; rewrite <- ?app_assoc; simpl;
    first [ exists (@nil event); split; [now rewrite app_nil_r | ]
          | eexists; split; [reflexivity | ] ];
    (split; [cbn; lia|]); (split; [cbn; lia|]); (split; [cbn; lia|]);
    first [discriminate | reflexivity].
Qed.

(** X19: iterations that find no new message leave nothing in the trace but
    their 100 ms sleeps. *)
Theorem idle_loop_only_sleeps (repr : json -> string) (n : nat) (m : machine) :
  LightProcess.loop repr (repeat None n) m =
  (Ok tt, add_events m (repeat (Sleep 100) n)).
Proof.
  revert m. induction n as [|n IH]; intros m.
  - cbn. unfold ret. now rewrite add_events_nil.
  - cbn [repeat LightProcess.loop]. unfold bind at 1.
    change (LightProcess.treat_message repr None m) with (Ok tt, m).
    cbn beta iota. unfold bind at 1. rewrite emit_add_events, IH, add_events_app.
    reflexivity.
Qed.

(** X20: the loop handles its polls one after the other: running it on a
    sequence of polls is running it on a first part and then, from the
    machine this leaves, on the rest. *)
Theorem loop_processes_in_order (repr : json -> string)
    (before after : list (option json)) (m : machine) :
  LightProcess.loop repr (before ++ after) m =
  LightProcess.loop repr after (snd (LightProcess.loop repr before m)).
Proof.
  revert m. induction before as [|incoming rest IH]; intros m.
  - reflexivity.
  - cbn [app LightProcess.loop].
    destruct (treat_message_frame repr incoming m) as (tr & E & _).
    unfold bind at 1 3. rewrite E. unfold bind at 1 2.
    rewrite emit_add_events. apply IH.
Qed.

(** X21: [run] never raises.  It connects, publishes "Ready", runs every
    iteration of the loop without a bus transaction and attempts the
    flash-register write of the shutdown; the flags read follows exactly
    when that write succeeded, and the GPIO release and the "Dead" status
    exactly when both transactions succeeded. *)
Theorem run_outcome (repr : json -> string) (polls : list (option json))
    (m : machine) :
  exists loop_tr tail,
    fst (LightProcess.run repr polls m) = Ok tt
    /\ trace (snd (LightProcess.run repr polls m)) =
       trace m
       ++ [MQTT_connect "light" "light_client";
           status_reply LightProcess.msg_ready]
       ++ loop_tr ++ SMBus_write 0x64 0x03 0 :: tail
    /\ List.length (filter is_sleep loop_tr) = List.length polls
    /\ filter is_bus_event loop_tr = []
    /\ ~ In (status_reply LightProcess.msg_dead) loop_tr
    /\ (In (status_reply LightProcess.msg_dead) tail
        <-> bus m (bus_ops m) <> None /\ bus m (S (bus_ops m)) <> None)
    /\ (In GPIO_cleanup tail
        <-> bus m (bus_ops m) <> None /\ bus m (S (bus_ops m)) <> None)
    /\ (In (SMBus_read 0x64 0x05) tail <-> bus m (bus_ops m) <> None).
Proof.
  destruct (run_run repr polls m) as (tr & _ & F & L & R).
  destruct (loop_events_quiet _ _ F) as (Q1 & Q2 & _ & _).
  rewrite R. unfold logger_catch. rewrite shutdown_run.
  cbn [add_events led trace bus bus_ops].
  destruct (bus m (bus_ops m)) as [w|];
    [destruct (bus m (S (bus_ops m))) as [byte|]|];
    cbn [fst snd trace].
  - exists tr, [SMBus_read 0x64 0x05; GPIO_cleanup;
                status_reply LightProcess.msg_dead; MQTT_shutdown].
    split; [reflexivity|]. split; [rewrite <- app_assoc; reflexivity|].
    split; [exact L|]. split; [exact Q1|]. split; [exact Q2|].
    split; [split; [intros _; split; discriminate|intros _; cbn; auto]|].
    split; [split; [intros _; split; discriminate|intros _; cbn; auto]|].
    split; [intros _; discriminate|intros _; cbn; auto].
  - exists tr, [SMBus_read 0x64 0x05].
    split; [reflexivity|]. split; [rewrite <- app_assoc; reflexivity|].
    split; [exact L|]. split; [exact Q1|]. split; [exact Q2|].
    split; [split; [intros [H|[]]; discriminate H|intros (_ & H); now elim H]|].
    split; [split; [intros [H|[]]; discriminate H|intros (_ & H); now elim H]|].
    split; [intros _; discriminate|intros _; cbn; auto].
  - exists tr, [].
    split; [reflexivity|]. split; [rewrite <- app_assoc; reflexivity|].
    split; [exact L|]. split; [exact Q1|]. split; [exact Q2|].
    split; [split; [intros []|intros (H & _); now elim H]|].
    split; [split; [intros []|intros (H & _); now elim H]|].
    split; [intros []|intros H; now elim H].
Qed.


(** ** The further properties at concrete inputs *)

Lemma driver_construction_clears_flags_witness :
  bus (power_on (fun _ => Some 0x25)) (bus_ops (power_on (fun _ => Some 0x25)))
  = Some 0x25
  /\ bus (power_on (fun _ => Some 0x25))
         (S (bus_ops (power_on (fun _ => Some 0x25)))) = Some 0x25
  /\ bus (power_on (fun _ => Some 0x25))
         (S (S (bus_ops (power_on (fun _ => Some 0x25))))) = Some 0x25
  /\ led (snd (i2c_led.__init__ (power_on (fun _ => Some 0x25)))) = all_clear.
Proof.
  split; [reflexivity|]. split; [reflexivity|]. split; [reflexivity|].
  rewrite (driver_construction_clears_flags (power_on (fun _ => Some 0x25))
             0x25 0x25 0x25 eq_refl eq_refl eq_refl).
  reflexivity.
Defined.

Lemma process_construction_outcome_witness :
  bus (power_on (fun _ => None)) (bus_ops (power_on (fun _ => None))) = None
  /\ exists tr,
       trace (snd (LightProcess.__init__ (power_on (fun _ => None)))) =
       trace (power_on (fun _ => None))
       ++ [GPIO_setwarnings false; GPIO_setmode_BCM; GPIO_setup_OUT 18;
           GPIO_output 18 true; SMBus_write 0x64 0x06 0x80] ++ tr
       /\ tr = [].
Proof.
  split; [reflexivity|].
  destruct (process_construction_outcome (power_on (fun _ => None)))
    as (tr & H1 & _ & _ & _ & _ & H6).
  exists tr. split; [exact H1|exact (H6 eq_refl)].
Defined.

Lemma get_id_low_six_bits_witness :
  bus (power_on (fun _ => Some 0xff)) (bus_ops (power_on (fun _ => Some 0xff)))
  = Some 0xff
  /\ exists led_id,
       fst (i2c_led.get_id (power_on (fun _ => Some 0xff))) = Ok led_id
       /\ led_id = 0xff mod 64.
Proof.
  split; [reflexivity|].
  destruct (get_id_low_six_bits (power_on (fun _ => Some 0xff)) 0xff eq_refl)
    as (led_id & H1 & H2 & _).
  exists led_id. split; [rewrite H1; reflexivity|exact H2].
Defined.

Lemma get_flags_failed_read_keeps_snapshot_witness :
  bus (power_on (fun _ => None)) (bus_ops (power_on (fun _ => None))) = None
  /\ i2c_led.get_flags (power_on (fun _ => None)) =
     (Raise OSError,
      {| led := led (power_on (fun _ => None));
         trace := trace (power_on (fun _ => None)) ++ [SMBus_read 0x64 0x05];
         bus := bus (power_on (fun _ => None));
         bus_ops := S (bus_ops (power_on (fun _ => None))) |}).
Proof.
  split; [reflexivity|].
  exact (get_flags_failed_read_keeps_snapshot (power_on (fun _ => None)) eq_refl).
Defined.

Lemma get_flags_twice_keeps_last_witness :
  bus (power_on (fun n => match n with O => Some 0x6f | S _ => Some 0 end)) 0
  = Some 0x6f
  /\ bus (power_on (fun n => match n with O => Some 0x6f | S _ => Some 0 end)) 1
     = Some 0
  /\ fst ((_ <- i2c_led.get_flags ;; i2c_led.get_flags)%py
            (power_on (fun n => match n with O => Some 0x6f | S _ => Some 0 end)))
     = Ok 0.
Proof.
  split; [reflexivity|]. split; [reflexivity|].
  rewrite (get_flags_twice_keeps_last
             (power_on (fun n => match n with O => Some 0x6f | S _ => Some 0 end))
             0x6f 0 eq_refl eq_refl).
  reflexivity.
Defined.

Lemma flash_value_fits_seven_bits_witness :
  0 <= 11 <= 1500
  /\ exists value,
       i2c_led.flash_value 11 = Ok value
       /\ 0 <= value <= 127
       /\ (value = 0 <-> 11 <= 11).
Proof.
  split; [lia|]. apply (flash_value_fits_seven_bits 11). lia.
Defined.

Lemma flash_value_monotone_witness :
  0 <= 11 /\ 11 <= 12 /\ 12 <= 1500
  /\ exists v w,
       i2c_led.flash_value 11 = Ok v /\ i2c_led.flash_value 12 = Ok w /\ v <= w.
Proof.
  split; [lia|]. split; [lia|]. split; [lia|].
  apply (flash_value_monotone 11 12); lia.
Defined.

Lemma set_flash_current_conversion_errors_witness :
  Z.abs 1500 < 2 ^ 53
  /\ (exists value,
         i2c_led.flash_value 1500 = Ok value
         /\ trace (snd (i2c_led.set_flash_current 1500 (power_on (fun _ => None)))) =
            trace (power_on (fun _ => None)) ++ [SMBus_write 0x64 0x03 value]
         /\ bus_ops (snd (i2c_led.set_flash_current 1500 (power_on (fun _ => None))))
            = S (bus_ops (power_on (fun _ => None))))
  /\ i2c_led.flash_value (2 ^ 1024) = Raise OverflowError
  /\ i2c_led.set_flash_current (2 ^ 1024) (power_on (fun _ => None))
     = (Raise OverflowError, power_on (fun _ => None)).
Proof.
  pose proof (set_flash_current_conversion_errors (power_on (fun _ => None)))
    as (H1 & H2 & H3).
  split; [reflexivity|]. split; [exact (H1 1500 eq_refl)|].
  split; [exact H3|exact (H2 (2 ^ 1024) OverflowError H3)].
Defined.

Lemma action_off_touches_no_hardware_witness :
  Py.dict_get [("action", JStr "off")] "action" = Some (JStr "off")
  /\ Py.eq_str (JStr "off") "off" = true
  /\ Py.dict_get [("action", JStr "off")] "settings" = None
  /\ LightProcess.treat_message sample_repr (Some message_off)
       (power_on (fun _ => None))
     = (Ok tt,
        add_events (power_on (fun _ => None))
          [MQTT_read_message; status_reply LightProcess.msg_off]).
Proof.
  split; [reflexivity|]. split; [reflexivity|]. split; [reflexivity|].
  exact (proj1 (action_off_touches_no_hardware sample_repr
                  [("action", JStr "off")] (JStr "off")
                  (power_on (fun _ => None)) eq_refl eq_refl eq_refl)).
Defined.

Lemma unknown_action_gets_no_reply_witness :
  Py.dict_get [("action", JStr "toggle")] "action" = Some (JStr "toggle")
  /\ Py.eq_str (JStr "toggle") "on" = false
  /\ Py.eq_str (JStr "toggle") "off" = false
  /\ Py.dict_get [("action", JStr "toggle")] "settings" = None
  /\ LightProcess.treat_message sample_repr
       (Some (JObj [("action", JStr "toggle")])) (power_on (fun _ => None))
     = (Ok tt, add_events (power_on (fun _ => None)) [MQTT_read_message]).
Proof.
  split; [reflexivity|]. split; [reflexivity|]. split; [reflexivity|].
  split; [reflexivity|].
  exact (unknown_action_gets_no_reply sample_repr [("action", JStr "toggle")]
           (JStr "toggle") (power_on (fun _ => None))
           eq_refl eq_refl eq_refl eq_refl).
Defined.

Lemma settings_without_current_reported_witness :
  Py.dict_get [("settings", JObj [("voltage", JInt 3)])] "settings"
  = Some (JObj [("voltage", JInt 3)])
  /\ Py.dict_get [("voltage", JInt 3)] "current" = None
  /\ LightProcess.treat_message sample_repr
       (Some (JObj [("settings", JObj [("voltage", JInt 3)])]))
       (power_on (fun _ => None))
     = (Ok tt,
        add_events (power_on (fun _ => None))
          (MQTT_read_message
           :: action_events [("settings", JObj [("voltage", JInt 3)])]
           ++ [status_reply
                 ("Settings request not understood in "
                  ++ sample_repr (JObj [("settings", JObj [("voltage", JInt 3)])]))%string])).
Proof.
  split; [reflexivity|]. split; [reflexivity|].
  exact (settings_without_current_reported sample_repr
           [("settings", JObj [("voltage", JInt 3)])] [("voltage", JInt 3)]
           (power_on (fun _ => None)) eq_refl eq_refl).
Defined.

Lemma malformed_settings_get_no_reply_witness :
  Py.dict_get [("action", JStr "on"); ("settings", JInt 5)] "settings"
  = Some (JInt 5)
  /\ Py.contains "current" (JInt 5) = Raise TypeError
  /\ LightProcess.treat_message sample_repr
       (Some (JObj [("action", JStr "on"); ("settings", JInt 5)]))
       (power_on (fun _ => None))
     = (Ok tt,
        add_events (power_on (fun _ => None))
          (MQTT_read_message
           :: action_events [("action", JStr "on"); ("settings", JInt 5)])).
Proof.
  split; [reflexivity|]. split; [reflexivity|].
  exact (malformed_settings_get_no_reply sample_repr
           [("action", JStr "on"); ("settings", JInt 5)] (JInt 5)
           (power_on (fun _ => None)) eq_refl
           (or_introl (ex_intro _ TypeError eq_refl))).
Defined.

Lemma scalar_payload_gets_no_reply_witness :
  Py.contains "action" (JInt 5) = Raise TypeError
  /\ LightProcess.treat_message sample_repr (Some (JInt 5))
       (power_on (fun _ => None))
     = (Ok tt, add_events (power_on (fun _ => None)) [MQTT_read_message]).
Proof.
  split; [reflexivity|].
  exact (scalar_payload_gets_no_reply sample_repr (JInt 5) TypeError
           (power_on (fun _ => None)) eq_refl).
Defined.

Lemma payload_without_fields_rejected_witness :
  Py.contains "action" (JStr "hello") = Ok false
  /\ Py.contains "settings" (JStr "hello") = Ok false
  /\ LightProcess.treat_message sample_repr (Some (JStr "hello"))
       (power_on (fun _ => None))
     = (Ok tt,
        add_events (power_on (fun _ => None))
          [MQTT_read_message; status_reply LightProcess.msg_no_field]).
Proof.
  split; [reflexivity|]. split; [reflexivity|].
  exact (payload_without_fields_rejected sample_repr (JStr "hello")
           (power_on (fun _ => None)) eq_refl eq_refl).
Defined.

Lemma string_payload_naming_a_field_gets_no_reply_witness :
  (Py.substring "action" "my settings" = true
   \/ Py.substring "settings" "my settings" = true)
  /\ LightProcess.treat_message sample_repr (Some (JStr "my settings"))
       (power_on (fun _ => None))
     = (Ok tt, add_events (power_on (fun _ => None)) [MQTT_read_message]).
Proof.
  split; [right; reflexivity|].
  exact (string_payload_naming_a_field_gets_no_reply sample_repr "my settings"
           (power_on (fun _ => None)) (or_intror eq_refl)).
Defined.

Lemma dispatch_step_is_bounded_witness :
  exists tr,
    trace (snd (LightProcess.treat_message sample_repr None
                  (power_on (fun _ => None))))
    = trace (power_on (fun _ => None)) ++ tr
    /\ tr = [].
Proof.
  destruct (dispatch_step_is_bounded sample_repr None (power_on (fun _ => None)))
    as (tr & H1 & _ & _ & _ & H5).
  exists tr. split; [exact H1|exact (H5 eq_refl)].
Defined.


Lemma run_outcome_witness :
  exists loop_tr tail,
    fst (LightProcess.run sample_repr [None] (power_on (fun _ => None))) = Ok tt
    /\ List.length (filter is_sleep loop_tr) = 1%nat
    /\ ~ In (status_reply LightProcess.msg_dead) tail.
Proof.
  destruct (run_outcome sample_repr [None] (power_on (fun _ => None)))
    as (loop_tr & tail & H1 & _ & H3 & _ & _ & H6 & _).
  exists loop_tr, tail. split; [exact H1|]. split; [exact H3|].
  intros Hin. apply H6 in Hin. destruct Hin as (Hb & _). now apply Hb.
Defined.
